(** * srtnr-mini: the link-shortening worker (src/worker.ts)

    A shallow embedding of the request handler of the worker and the
    properties of its routing, authorization, slug resolution, storage
    and click counting.

    Conventions of the embedding.
    - Strings are [string]; the two KV namespaces are finite maps from
      keys to the stored text, as the KV interface has them.
    - Every KV operation is recorded in a log, so that "the handler did
      not touch storage" and "the check ran once" are statements about
      the final state.
    - [Math.random] is a stream of draws with a cursor; the clock and the
      request's origin are inputs of the handler.
    - Built-ins of the platform that the worker calls but does not define
      ([JSON.parse], [JSON.stringify], [decodeURIComponent], the URL check
      of [Response.redirect]) are the fields of the class [Platform]; the
      handler is defined over any platform.
    - KV and secret-store calls that reject are modelled where a handler
      can observe them: the secret store's [get] may reject; KV calls are
      taken to succeed.
    - A promise passed to [ctx.waitUntil], or left un-awaited, runs to
      completion before the next request (no concurrent races). *)

From Stdlib Require Import ZArith QArith Lia Bool List String Ascii.
From Stdlib Require Import Decimal DecimalString DecimalPos.
From stdpp Require Import base option gmap strings list fin_maps.

Local Open Scope string_scope.
Local Open Scope Z_scope.

(** ** JavaScript values that reach the worker as parsed JSON *)

#[local] Unset Elimination Schemes.
Inductive json : Type :=
| JNull
| JBool (b : bool)
| JNumber (q : Q)
| JString (s : string)
| JArray (items : list json)
| JObject (fields : list (string * json)).
#[local] Set Elimination Schemes.

(** A property read yields a value or [undefined]. *)
Definition jsval : Type := option json.

(** JavaScript truthiness ([!x] is its negation). *)
Definition truthy (v : jsval) : bool :=
  match v with
  | None => false
  | Some JNull => false
  | Some (JBool b) => b
  | Some (JNumber q) => negb (Qeq_bool q 0)
  | Some (JString s) => negb (String.eqb s "")
  | Some (JArray _) => true
  | Some (JObject _) => true
  end.

(** Truthiness of a [string | null], the result of a KV text read. *)
Definition truthy_text (v : option string) : bool :=
  match v with
  | None => false
  | Some s => negb (String.eqb s "")
  end.

(** [typeof v === 'string'], and the text of a string value. *)
Definition typeof_string (v : jsval) : bool :=
  match v with
  | Some (JString _) => true
  | _ => false
  end.

Definition string_of (v : jsval) : string :=
  match v with
  | Some (JString s) => s
  | _ => ""
  end.

(** [o.name] for a parsed JSON value other than [null]. *)
Fixpoint lookup_field (name : string) (fields : list (string * json)) : jsval :=
  match fields with
  | [] => None
  | (k, v) :: rest => if String.eqb k name then Some v else lookup_field name rest
  end.

Definition get_prop (v : json) (name : string) : jsval :=
  match v with
  | JObject fields => lookup_field name fields
  | _ => None
  end.

(** ** Strings *)

(** [s.startsWith(p)] *)
Definition startsWith (s p : string) : bool := String.prefix p s.

(** [s.substring(n)] and [s.slice(n)] for [n >= 0]: the text from index [n]. *)
Fixpoint str_from (n : nat) (s : string) : string :=
  match n, s with
  | O, _ => s
  | S _, EmptyString => EmptyString
  | S n', String _ rest => str_from n' rest
  end.

(** [hay.includes(needle)] on strings: substring search. *)
Fixpoint str_includes (hay needle : string) : bool :=
  String.prefix needle hay ||
  match hay with
  | EmptyString => false
  | String _ rest => str_includes rest needle
  end.

(** The characters [a-zA-Z0-9], and a test of every character. *)
Definition is_alnum (c : ascii) : bool :=
  let n := nat_of_ascii c in
  ((Nat.leb 97 n && Nat.leb n 122) || (Nat.leb 65 n && Nat.leb n 90)
   || (Nat.leb 48 n && Nat.leb n 57))%bool.

Fixpoint all_chars (p : ascii -> bool) (s : string) : bool :=
  match s with
  | EmptyString => true
  | String c rest => (p c && all_chars p rest)%bool
  end.

(** ** The platform's built-ins *)

Record StoredLink : Type := mkLink {
  originalUrl : string;
  slug : string;
  created : string;
}.

Class Platform : Type := {
  (** [JSON.parse]: [None] is a thrown [SyntaxError]. *)
  JSON_parse : string -> option json;
  (** [JSON.stringify] at the type [StoredLink]. *)
  JSON_stringify : StoredLink -> string;
  (** [decodeURIComponent]: [None] is a thrown [URIError]. *)
  decodeURIComponent : string -> option string;
  (** The URL parser behind [Response.redirect]: the serialised URL, which
      becomes the [Location] header; [None] is a thrown [TypeError]. *)
  URL_href : string -> option string;
  (** The string conversion [Response.redirect] applies to an argument
      that is not a string. *)
  ToString_other : jsval -> string;
}.

(** The object [JSON.stringify] serialises for a link, as [JSON.parse]
    returns it. *)
Definition link_json (l : StoredLink) : json :=
  JObject [("originalUrl", JString (originalUrl l));
           ("slug", JString (slug l));
           ("created", JString (created l))].

(** ** Bindings, state and effects *)

(** [env.API_KEYS]: a plain string, a secrets-store binding whose [get]
    resolves to a string or [null] or rejects, or anything else. *)
Inductive secret_binding : Type :=
| SecretString (value : string)
| SecretStore (resolved : option (option string))
| SecretOther.

Record Env : Type := mkEnv {
  URL_KV : gmap string string;
  URL_KV_list : bool;            (* whether [URL_KV.list] is a function *)
  API_KEYS : secret_binding;
  LINK_CLICKS_KV : gmap string string;
}.

Inductive namespace : Type := LinkStore | ClickStore.

Inductive kv_event : Type :=
| KVGet (ns : namespace) (key : string)
| KVPut (ns : namespace) (key value : string)
| KVDelete (ns : namespace) (key : string)
| KVList (ns : namespace).

Record State : Type := mkState {
  env : Env;
  kv_log : list kv_event;        (* KV calls made so far, oldest first *)
  Math_random : nat -> nat;      (* the draws of [Math.random], scaled *)
  random_cursor : nat;           (* how many draws were consumed *)
  Date_now : string;             (* [new Date().toISOString()] *)
}.

Inductive exn : Type :=
| Error (message : string)
| SyntaxError
| TypeError
| URIError.

Inductive result (A : Type) : Type :=
| Ok (a : A)
| Throw (e : exn).
Arguments Ok {A} a.
Arguments Throw {A} e.

(** Computations that read and write the state and may throw. *)
Definition M (A : Type) : Type := State -> result A * State.

Definition ret {A} (a : A) : M A := fun st => (Ok a, st).
Definition throw {A} (e : exn) : M A := fun st => (Throw e, st).
Definition bind {A B} (m : M A) (k : A -> M B) : M B :=
  fun st => match m st with
            | (Ok a, st') => k a st'
            | (Throw e, st') => (Throw e, st')
            end.
Definition try_catch {A} (m : M A) (handler : exn -> M A) : M A :=
  fun st => match m st with
            | (Ok a, st') => (Ok a, st')
            | (Throw e, st') => handler e st'
            end.

Notation "'let!' x ':=' m 'in' k" := (bind m (fun x => k))
  (at level 10, x name, m at level 100, k at level 200).
Notation "'do!' m 'in' k" := (bind m (fun _ => k))
  (at level 10, m at level 100, k at level 200).

Definition get_env : M Env := fun st => (Ok (env st), st).
Definition get_now : M string := fun st => (Ok (Date_now st), st).

Definition ns_map (ns : namespace) (e : Env) : gmap string string :=
  match ns with
  | LinkStore => URL_KV e
  | ClickStore => LINK_CLICKS_KV e
  end.

Definition set_ns_map (ns : namespace) (m : gmap string string) (e : Env) : Env :=
  match ns with
  | LinkStore => mkEnv m (URL_KV_list e) (API_KEYS e) (LINK_CLICKS_KV e)
  | ClickStore => mkEnv (URL_KV e) (URL_KV_list e) (API_KEYS e) m
  end.

Definition record (ev : kv_event) (st : State) : State :=
  mkState (env st) (kv_log st ++ [ev]) (Math_random st) (random_cursor st)
          (Date_now st).

Definition with_env (e : Env) (st : State) : State :=
  mkState e (kv_log st) (Math_random st) (random_cursor st) (Date_now st).

(** [kv.get(key)]: the stored text or [null]. *)
Definition kv_get (ns : namespace) (key : string) : M (option string) :=
  fun st => (Ok (ns_map ns (env st) !! key), record (KVGet ns key) st).

(** [kv.put(key, value)] *)
Definition kv_put (ns : namespace) (key value : string) : M unit :=
  fun st => (Ok tt,
             record (KVPut ns key value)
                    (with_env (set_ns_map ns (<[key := value]> (ns_map ns (env st))) (env st)) st)).

(** [kv.delete(key)] *)
Definition kv_delete (ns : namespace) (key : string) : M unit :=
  fun st => (Ok tt,
             record (KVDelete ns key)
                    (with_env (set_ns_map ns (delete key (ns_map ns (env st))) (env st)) st)).

(** [kv.get(key, { type: 'json' })]: [null] for a missing key, the parsed
    text otherwise; a text that does not parse rejects. *)
Definition kv_get_json `{Platform} (ns : namespace) (key : string) : M json :=
  let! text := kv_get ns key in
  match text with
  | None => ret JNull
  | Some t => match JSON_parse t with
              | Some v => ret v
              | None => throw SyntaxError
              end
  end.

(** ** Slug generation (generateSlug, getUniqueSlug) *)

Definition chars : string :=
  "abcdefghijklmnopqrstuvwxyzABCDEFGHIJKLMNOPQRSTUVWXYZ0123456789".

(** [chars[i]] appended to a string; an index out of range reads
    [undefined], which concatenates as that word. *)
Definition chars_at (i : nat) : string :=
  match String.get i chars with
  | Some c => String c EmptyString
  | None => "undefined"
  end.

(** [Math.floor(Math.random() * chars.length)]: [Math.random] is in
    [0, 1), so the index is below the length; a draw [d] of the stream
    stands for the index [d mod chars.length]. *)
Definition random_index : M nat :=
  fun st => (Ok (Nat.modulo (Math_random st (random_cursor st)) (String.length chars)),
             mkState (env st) (kv_log st) (Math_random st) (S (random_cursor st))
                     (Date_now st)).

(** The body of [for (let i = 0; i < 6; i++)], [n] rounds to go. *)
Fixpoint generateSlug_loop (n : nat) (slug : string) : M string :=
  match n with
  | O => ret slug
  | S n' => let! i := random_index in generateSlug_loop n' (slug ++ chars_at i)
  end.

Definition generateSlug : M string := generateSlug_loop 6 "".

(** [customSlug || generateSlug()] tests the optional string for
    truthiness: [undefined] and the empty string are falsy. *)
Definition custom_given (customSlug : option string) : bool :=
  truthy_text customSlug.

(** The body of [for (let i = 0; i < retries; i++)], [n] rounds to go. *)
Fixpoint getUniqueSlug_loop (customSlug : option string) (n : nat) (slug : string)
  : M string :=
  match n with
  | O => throw (Error "Failed to generate unique slug after retries")
  | S n' =>
      let! existing := kv_get LinkStore slug in
      if negb (truthy_text existing) then ret slug
      else if custom_given customSlug then throw (Error "Custom slug already exists")
      else let! slug' := generateSlug in getUniqueSlug_loop customSlug n' slug'
  end.

(** [getUniqueSlug(kv, customSlug, retries = 5)]; its only caller passes
    [env.URL_KV] and leaves [retries] at its default. *)
Definition getUniqueSlug (customSlug : option string) (retries : nat) : M string :=
  let! slug := match customSlug with
               | Some s => if custom_given customSlug then ret s else generateSlug
               | None => generateSlug
               end in
  getUniqueSlug_loop customSlug retries slug.

(** ** Numbers of the click counter (parseInt, String) *)

(** White space that [parseInt] skips (the ASCII part of it). *)
Definition is_space (c : ascii) : bool :=
  let n := nat_of_ascii c in
  (Nat.eqb n 9 || Nat.eqb n 10 || Nat.eqb n 11 || Nat.eqb n 12 || Nat.eqb n 13
   || Nat.eqb n 32)%bool.

Fixpoint skip_space (s : string) : string :=
  match s with
  | String c rest => if is_space c then skip_space rest else s
  | EmptyString => s
  end.

Definition digit_of (c : ascii) : option Z :=
  let n := nat_of_ascii c in
  if (Nat.leb 48 n && Nat.leb n 57)%bool then Some (Z.of_nat (n - 48)) else None.

(** The longest prefix of decimal digits, read left to right; [acc] is
    [None] until a digit was read. *)
Fixpoint parse_digits (s : string) (acc : option Z) : option Z :=
  match s with
  | EmptyString => acc
  | String c rest =>
      match digit_of c with
      | Some d => parse_digits rest (Some (10 * default 0 acc + d))
      | None => acc
      end
  end.

(** [parseInt(s, 10)]: [None] is [NaN]. Integers are exact here; the
    worker's numbers are doubles, which agree with this where the value
    read is in [-2^53, 2^53) ([safe_integer] below). *)
Definition parseInt (s : string) : option Z :=
  match skip_space s with
  | String "-"%char rest => Z.opp <$> parse_digits rest None
  | String "+"%char rest => parse_digits rest None
  | s' => parse_digits s' None
  end.

(** [String(n)] for an integer [n] (below 10^21 in absolute value). *)
Definition String_of (n : Z) : string := NilZero.string_of_int (Z.to_int n).

(** [Number.isFinite(n) ? n : 0] *)
Definition finite_or_zero (n : option Z) : Z := default 0 n.

(** ** Requests and responses *)

(** The value [request.json()] resolves to, at the type the handlers
    cast it to; [url] is kept as a JSON value because the handler tests
    its type. The handlers do not test the type of [slug]: this type
    covers the bodies whose slug is absent or a string, and a body whose
    slug is another JSON value (a number, an array) is outside it. *)
Inductive parsed_body : Type :=
| BodyReject                                   (* not JSON: the promise rejects *)
| BodyNull                                     (* the JSON text [null] *)
| BodyObj (url : jsval) (slug : option string).

Record Request : Type := mkRequest {
  method : string;
  pathname : string;               (* [new URL(request.url).pathname] *)
  origin : string;                 (* [new URL(request.url).origin] *)
  Authorization : option string;   (* [request.headers.get('Authorization')] *)
  json_body : parsed_body;
  ctx_waitUntil : bool;            (* [ctx && typeof ctx.waitUntil === 'function'] *)
}.

Record LinkInfo : Type := mkInfo {
  info_slug : jsval;
  destination : jsval;
  info_created : jsval;
  clicks : Z;
}.

Inductive body : Type :=
| JsonHealth                                   (* { ok: true, service: 'srtnr-mini' } *)
| JsonError (error : string)                   (* { error } *)
| JsonShort (shortUrl slug : string)           (* { shortUrl, slug } *)
| JsonMessage (message : string)               (* { message } *)
| JsonInfo (info : LinkInfo)
| JsonLinks (links : list LinkInfo)            (* { links } *)
| Text (text : string)
| NoBody.

Record Response : Type := mkResponse {
  status : nat;
  payload : body;
  location : option string;        (* the [Location] header of a redirect *)
}.

(** [json(data, init)] and [new Response(text, init)] *)
Definition json_response (data : body) (st : nat) : Response := mkResponse st data None.
Definition text_response (text : string) (st : nat) : Response :=
  mkResponse st (Text text) None.

(** [Response.redirect(url, 301)]: the argument is converted to a string
    and parsed as a URL; the response carries the parsed URL as
    [Location]. *)
Definition Response_redirect `{Platform} (url : jsval) (st : nat) : M Response :=
  let target := match url with
                | Some (JString s) => s
                | _ => ToString_other url
                end in
  match URL_href target with
  | Some href => ret (mkResponse st NoBody (Some href))
  | None => throw TypeError
  end.

Definition read_body (b : parsed_body) : M (jsval * option string) :=
  match b with
  | BodyReject => throw SyntaxError
  | BodyNull => throw TypeError
  | BodyObj url slug => ret (url, slug)
  end.

(** ** Authorization (validateApiKey) *)

(** [allowedKeys.includes(providedKey)] on the parsed secret: membership
    for an array, substring search for a string, and a [TypeError] for a
    value without that method. *)
Definition includes (allowedKeys : json) (providedKey : string) : option bool :=
  match allowedKeys with
  | JArray items =>
      Some (existsb (fun v => match v with
                              | JString s => String.eqb s providedKey
                              | _ => false
                              end) items)
  | JString s => Some (str_includes s providedKey)
  | _ => None
  end.

(** The value assigned to [secretValue]; [None] is a rejected [get]. *)
Definition resolve_secret (b : secret_binding) : option (option string) :=
  match b with
  | SecretString value => Some (Some value)
  | SecretStore resolved => resolved
  | SecretOther => Some None
  end.

Definition validateApiKey `{Platform} (request : Request) (e : Env) : option json :=
  match Authorization request with
  | None => None
  | Some authHeader =>
      if (negb (truthy_text (Some authHeader)) || negb (startsWith authHeader "Bearer "))%bool
      then None
      else
        let providedKey := str_from 7 authHeader in
        match resolve_secret (API_KEYS e) with
        | None => None                                   (* catch *)
        | Some secretValue =>
            if negb (truthy_text secretValue) then None  (* config error *)
            else match JSON_parse (default "" secretValue) with
                 | None => None                          (* catch *)
                 | Some allowedKeys =>
                     match includes allowedKeys providedKey with
                     | None => None                      (* catch *)
                     | Some found => if negb found then None else Some allowedKeys
                     end
                 end
        end
  end.

(** ** The handlers (fetch) *)

Section Handlers.
Context `{Platform}.

Definition getClickCount (slug : string) : M Z :=
  try_catch
    (let! raw := kv_get ClickStore slug in
     let n := parseInt (match raw with None => "0" | Some text => text end) in
     ret (finite_or_zero n))
    (fun _ => ret 0).

Definition incrementClickCount (slug : string) : M unit :=
  try_catch
    (let! raw := kv_get ClickStore slug in
     let current := parseInt (match raw with None => "0" | Some text => text end) in
     let next := finite_or_zero current + 1 in
     kv_put ClickStore slug (String_of next))
    (fun _ => ret tt).

Definition getLinkInfo (slug : string) : M (option LinkInfo) :=
  let! stored := kv_get_json LinkStore slug in
  if negb (truthy (Some stored)) then ret None
  else
    let! clicks := getClickCount slug in
    ret (Some (mkInfo (get_prop stored "slug") (get_prop stored "originalUrl")
                      (get_prop stored "created") clicks)).

Definition unauthorized : Response :=
  json_response (JsonError "missing or invalid API key") 401.

(** POST /api/shorten, after the routing test. *)
Definition handle_shorten (request : Request) : M Response :=
  let! e := get_env in
  match validateApiKey request e with
  | None => ret unauthorized
  | Some _ =>
      try_catch
        (let! b := read_body (json_body request) in
         let url := fst b in
         if (negb (truthy url) || negb (typeof_string url)
             || negb (startsWith (string_of url) "http"))%bool
         then ret (json_response (JsonError "Invalid URL") 400)
         else
           let! slug := getUniqueSlug (snd b) 5 in
           let! now := get_now in
           let linkData := mkLink (string_of url) slug now in
           do! kv_put LinkStore slug (JSON_stringify linkData) in
           ret (json_response (JsonShort (origin request ++ "/" ++ slug) slug) 200))
        (fun _ => ret (json_response (JsonError "Server Error") 500))
  end.

(** DELETE /api/delete, after the routing test. *)
Definition handle_delete (request : Request) : M Response :=
  let! e := get_env in
  match validateApiKey request e with
  | None => ret unauthorized
  | Some _ =>
      try_catch
        (let! b := read_body (json_body request) in
         if negb (truthy_text (snd b))
         then ret (json_response (JsonError "missing slug") 400)
         else
           let slug := default "" (snd b) in
           let! existing := kv_get LinkStore slug in
           if negb (truthy_text existing)
           then ret (json_response (JsonError "slug not found") 404)
           else
             do! kv_delete LinkStore slug in
             ret (json_response (JsonMessage "link deleted") 200))
        (fun _ => ret (json_response (JsonError "server error") 500))
  end.

(** GET /api/links/:slug and /links/:slug, after the routing test. The
    slug is decoded before the key is validated. *)
Definition handle_info (request : Request) : M Response :=
  let path := pathname request in
  let base := if startsWith path "/api/links/" then "/api/links/" else "/links/" in
  match decodeURIComponent (str_from (String.length base) path) with
  | None => throw URIError
  | Some slug =>
      let! e := get_env in
      match validateApiKey request e with
      | None => ret unauthorized
      | Some _ =>
          try_catch
            (let! info := getLinkInfo slug in
             match info with
             | None => ret (json_response (JsonError "slug not found") 404)
             | Some i => ret (json_response (JsonInfo i) 200)
             end)
            (fun _ => ret (json_response (JsonError "server error") 500))
      end
  end.

(** [Promise.all] over [getLinkInfo], then the filter on [null]. *)
Fixpoint collect_infos (slugs : list string) : M (list LinkInfo) :=
  match slugs with
  | [] => ret []
  | slug :: rest =>
      let! info := getLinkInfo slug in
      let! infos := collect_infos rest in
      ret (match info with Some i => i :: infos | None => infos end)
  end.

(** The paging loop over [URL_KV.list]: every key of the namespace; the
    pages are recorded as one call. *)
Definition list_keys : M (list string) :=
  fun st => (Ok (map fst (map_to_list (URL_KV (env st)))), record (KVList LinkStore) st).

(** GET /api/links and /links, after the routing test. *)
Definition handle_list (request : Request) : M Response :=
  let! e := get_env in
  match validateApiKey request e with
  | None => ret unauthorized
  | Some _ =>
      try_catch
        (if URL_KV_list e
         then
           let! keys := list_keys in
           let uniqueKeys := remove_dups keys in
           let! results := collect_infos uniqueKeys in
           ret (json_response (JsonLinks results) 200)
         else ret (json_response (JsonError "KV list not supported in this environment") 501))
        (fun _ => ret (json_response (JsonError "server error") 500))
  end.

(** GET of a path outside /api/: the redirect. The increment is started
    before [Response.redirect] is evaluated. *)
Definition handle_redirect (request : Request) : M Response :=
  let path := pathname request in
  let slug := if startsWith path "/" then str_from 1 path else path in
  if negb (truthy_text (Some slug)) then ret (text_response "not found" 404)
  else
    try_catch
      (let! stored := kv_get_json LinkStore slug in
       if negb (truthy (Some stored)) then ret (text_response "not found" 404)
       else
         do! (if ctx_waitUntil request
              then incrementClickCount slug      (* ctx.waitUntil(...) *)
              else incrementClickCount slug)     (* not awaited *)
         in Response_redirect (get_prop stored "originalUrl") 301)
      (fun _ => ret (text_response "server error" 500)).

Definition is_info_path (path : string) : bool :=
  ((startsWith path "/api/links/" && Nat.ltb (String.length "/api/links/") (String.length path))
   || (startsWith path "/links/" && Nat.ltb (String.length "/links/") (String.length path)))%bool.

Definition is_list_path (path : string) : bool :=
  (String.eqb path "/api/links" || String.eqb path "/api/links/"
   || String.eqb path "/links" || String.eqb path "/links/")%bool.

Definition fetch (request : Request) : M Response :=
  try_catch
    (let m := method request in
     let path := pathname request in
     if (String.eqb m "GET" && String.eqb path "/")%bool
     then ret (json_response JsonHealth 200)
     else if (String.eqb m "POST" && String.eqb path "/api/shorten")%bool
     then handle_shorten request
     else if (String.eqb m "DELETE" && String.eqb path "/api/delete")%bool
     then handle_delete request
     else if (String.eqb m "GET" && is_info_path path)%bool
     then handle_info request
     else if (String.eqb m "GET" && is_list_path path)%bool
     then handle_list request
     else if (String.eqb m "GET" && negb (startsWith path "/api/"))%bool
     then handle_redirect request
     else ret (text_response "not found" 404))
    (fun _ => ret (text_response "server error" 500)).

End Handlers.

(** ** A reference platform

    An executable instance of [Platform] for running the handlers on
    concrete requests. It implements the built-ins on a fragment:
    JSON texts made of [null], [true], [false], integers, strings without
    escapes, arrays and objects; percent escapes below 0x80; absolute
    http and https URLs. Outside the fragment it reports an error. *)

Module Reference.

Definition is_json_space (c : ascii) : bool :=
  let n := nat_of_ascii c in
  (Nat.eqb n 9 || Nat.eqb n 10 || Nat.eqb n 13 || Nat.eqb n 32)%bool.

Fixpoint skip_ws (s : string) : string :=
  match s with
  | String c rest => if is_json_space c then skip_ws rest else s
  | EmptyString => s
  end.

(** The quotation mark. *)
Definition dquote : ascii := ascii_of_nat 34.

(** The characters of a string literal up to its closing quote. *)
Fixpoint scan_string (s : string) : option (string * string) :=
  match s with
  | EmptyString => None
  | String c rest =>
      if Ascii.eqb c dquote then Some (EmptyString, rest)
      else if (Ascii.eqb c "\"%char || Nat.ltb (nat_of_ascii c) 32)%bool then None
      else match scan_string rest with
           | Some (text, rest') => Some (String c text, rest')
           | None => None
           end
  end.

Fixpoint scan_digits (s : string) : string * string :=
  match s with
  | String c rest =>
      match digit_of c with
      | Some _ => let (ds, rest') := scan_digits rest in (String c ds, rest')
      | None => (EmptyString, s)
      end
  | EmptyString => (EmptyString, s)
  end.

Definition scan_number (s : string) : option (json * string) :=
  let (neg, s1) := match s with
                   | String "-"%char rest => (true, rest)
                   | _ => (false, s)
                   end in
  let (ds, rest) := scan_digits s1 in
  match ds, parse_digits ds None with
  | String "0"%char (String _ _), _ => None
  | _, Some n => Some (JNumber (inject_Z (if neg then - n else n)), rest)
  | _, None => None
  end.

Definition expect (word : string) (v : json) (s : string) : option (json * string) :=
  if String.prefix word s then Some (v, str_from (String.length word) s) else None.

Fixpoint parse_value (fuel : nat) (s : string) : option (json * string) :=
  match fuel with
  | O => None
  | S fuel' =>
      match skip_ws s with
      | EmptyString => None
      | String c rest as s' =>
          if Ascii.eqb c dquote then
            match scan_string rest with
            | Some (text, rest') => Some (JString text, rest')
            | None => None
            end
          else if Ascii.eqb c "["%char then
            match skip_ws rest with
            | String "]"%char rest' => Some (JArray [], rest')
            | _ => match parse_elements fuel' rest with
                   | Some (items, rest') => Some (JArray items, rest')
                   | None => None
                   end
            end
          else if Ascii.eqb c "{"%char then
            match skip_ws rest with
            | String "}"%char rest' => Some (JObject [], rest')
            | _ => match parse_members fuel' rest with
                   | Some (fields, rest') => Some (JObject fields, rest')
                   | None => None
                   end
            end
          else if Ascii.eqb c "n"%char then expect "null" JNull s'
          else if Ascii.eqb c "t"%char then expect "true" (JBool true) s'
          else if Ascii.eqb c "f"%char then expect "false" (JBool false) s'
          else scan_number s'
      end
  end
with parse_elements (fuel : nat) (s : string) : option (list json * string) :=
  match fuel with
  | O => None
  | S fuel' =>
      match parse_value fuel' s with
      | Some (v, rest) =>
          match skip_ws rest with
          | String ","%char rest' =>
              match parse_elements fuel' rest' with
              | Some (vs, rest'') => Some (v :: vs, rest'')
              | None => None
              end
          | String "]"%char rest' => Some ([v], rest')
          | _ => None
          end
      | None => None
      end
  end
with parse_members (fuel : nat) (s : string) : option (list (string * json) * string) :=
  match fuel with
  | O => None
  | S fuel' =>
      match skip_ws s with
      | EmptyString => None
      | String c rest =>
          if negb (Ascii.eqb c dquote) then None
          else
            match scan_string rest with
            | Some (key, rest1) =>
                match skip_ws rest1 with
                | String ":"%char rest2 =>
                    match parse_value fuel' rest2 with
                    | Some (v, rest3) =>
                        match skip_ws rest3 with
                        | String ","%char rest4 =>
                            match parse_members fuel' rest4 with
                            | Some (fs, rest5) => Some ((key, v) :: fs, rest5)
                            | None => None
                            end
                        | String "}"%char rest4 => Some ([(key, v)], rest4)
                        | _ => None
                        end
                    | None => None
                    end
                | _ => None
                end
            | None => None
            end
      end
  end.

Definition parse (s : string) : option json :=
  match parse_value (S (String.length s)) s with
  | Some (v, rest) => match skip_ws rest with
                      | EmptyString => Some v
                      | _ => None
                      end
  | None => None
  end.

(** A string literal, and the text of an array of string literals. *)
Definition quote (s : string) : string :=
  String dquote (s ++ String dquote EmptyString).

Fixpoint join (sep : string) (items : list string) : string :=
  match items with
  | [] => EmptyString
  | [x] => x
  | x :: rest => x ++ sep ++ join sep rest
  end.

Definition array_text (keys : list string) : string :=
  "[" ++ join "," (map quote keys) ++ "]".

Definition stringify (l : StoredLink) : string :=
  "{" ++ quote "originalUrl" ++ ":" ++ quote (originalUrl l) ++ ","
      ++ quote "slug" ++ ":" ++ quote (slug l) ++ ","
      ++ quote "created" ++ ":" ++ quote (created l) ++ "}".

Definition hex_of (c : ascii) : option nat :=
  let n := nat_of_ascii c in
  if (Nat.leb 48 n && Nat.leb n 57)%bool then Some (n - 48)%nat
  else if (Nat.leb 65 n && Nat.leb n 70)%bool then Some (n - 55)%nat
  else if (Nat.leb 97 n && Nat.leb n 102)%bool then Some (n - 87)%nat
  else None.

Fixpoint decode (s : string) : option string :=
  match s with
  | EmptyString => Some EmptyString
  | String "%"%char (String h (String l rest)) =>
      match hex_of h, hex_of l, decode rest with
      | Some a, Some b, Some text =>
          if Nat.ltb (16 * a + b) 128
          then Some (String (ascii_of_nat (16 * a + b)) text)
          else None
      | _, _, _ => None
      end
  | String "%"%char _ => None
  | String c rest => String c <$> decode rest
  end.

(** URLs of the fragment: [http://] or [https://], then a host and an
    optional path made of lower-case letters, digits and [. - _ ~ /],
    without dot segments. Their serialisation adds the path [/] when there
    is none. *)
Definition url_char (c : ascii) : bool :=
  let n := nat_of_ascii c in
  ((Nat.leb 97 n && Nat.leb n 122) || (Nat.leb 48 n && Nat.leb n 57)
   || Nat.eqb n 45 || Nat.eqb n 46 || Nat.eqb n 47 || Nat.eqb n 95 || Nat.eqb n 126)%bool.

Definition after_scheme (s : string) : option string :=
  if String.prefix "http://" s then Some (str_from 7 s)
  else if String.prefix "https://" s then Some (str_from 8 s)
  else None.

Definition href (s : string) : option string :=
  match after_scheme s with
  | Some (String c _ as rest) =>
      if (is_alnum c && all_chars url_char rest && negb (str_includes rest "/.")
          && negb (str_includes rest "//"))%bool
      then Some (if str_includes rest "/" then s else s ++ "/")
      else None
  | _ => None
  end.

Definition toString (v : jsval) : string :=
  match v with
  | None => "undefined"
  | Some JNull => "null"
  | Some (JBool true) => "true"
  | Some (JBool false) => "false"
  | Some (JString s) => s
  | Some _ => "[object Object]"
  end.

Definition platform : Platform :=
  {| JSON_parse := parse;
     JSON_stringify := stringify;
     decodeURIComponent := decode;
     URL_href := href;
     ToString_other := toString |}.

End Reference.

(** ** Concrete requests and states for running the handlers *)

Module Sample.

Definition keys : secret_binding :=
  SecretString (Reference.array_text ["key-1"; "key-2"]).

(** A secret written as one JSON string instead of an array. *)
Definition string_keys : secret_binding := SecretString (Reference.quote "key-1").

Definition state (links clicks : gmap string string) (secret : secret_binding) : State :=
  mkState (mkEnv links true secret clicks) [] (fun k => k) 0 "2024-01-01T00:00:00.000Z".

Definition request (m path : string) (auth : option string) (b : parsed_body) : Request :=
  mkRequest m path "https://srt.example" auth b true.

Definition link_a : string :=
  Reference.stringify (mkLink "https://a.com" "abc123" "2023-12-31T00:00:00.000Z").

(** The link [abc123] with three clicks counted. *)
Definition one_link : State :=
  state {[ "abc123" := link_a ]} {[ "abc123" := "3" ]} keys.

(** The parsed key list of [keys]. *)
Definition key_list : json := JArray [JString "key-1"; JString "key-2"].

(** A deployment whose KV binding cannot list. *)
Definition no_list : State :=
  mkState (mkEnv ∅ false keys ∅) [] (fun k => k) 0 "2024-01-01T00:00:00.000Z".

(** A Link Store with one text that is not JSON. *)
Definition corrupt : State := state {[ "bad" := "not json" ]} ∅ keys.

End Sample.

(** ** Specification-side vocabulary *)

(** The request presents the Bearer scheme with this token. *)
Definition bearer (request : Request) (token : string) : Prop :=
  Authorization request = Some ("Bearer " ++ token).

(** The request is one of those that require a key. *)
Definition requires_key (request : Request) : bool :=
  ((String.eqb (method request) "POST" && String.eqb (pathname request) "/api/shorten")
   || (String.eqb (method request) "DELETE" && String.eqb (pathname request) "/api/delete")
   || (String.eqb (method request) "GET"
       && (is_info_path (pathname request) || is_list_path (pathname request))))%bool.

(** The slug that the single-link route reads from the path, before it is
    decoded. *)
Definition info_path_slug (path : string) : string :=
  str_from (String.length (if startsWith path "/api/links/" then "/api/links/" else "/links/"))
           path.

(** A slug as [generateSlug] makes them: six characters of [a-zA-Z0-9]. *)
Definition is_generated_slug (s : string) : bool :=
  (Nat.eqb (String.length s) 6 && all_chars is_alnum s)%bool.

(** The state after [n] draws of [Math.random]. *)
Definition advance (n : nat) (st : State) : State :=
  mkState (env st) (kv_log st) (Math_random st) (n + random_cursor st) (Date_now st).

(** Every text the namespace holds is non-empty, as the JSON of a link
    record is. *)
Definition stored_nonempty (m : gmap string string) : Prop :=
  forall key text, m !! key = Some text -> text <> "".

(** The Link Store reads the candidate as taken. *)
Definition collides (m : gmap string string) (c : string) : Prop :=
  truthy_text (m !! c) = true.

(** The error of [getUniqueSlug] after the last retry (SlugExhausted). *)
Definition exhausted : exn := Error "Failed to generate unique slug after retries".

(** The same request with another body. *)
Definition with_body (request : Request) (b : parsed_body) : Request :=
  mkRequest (method request) (pathname request) (origin request)
            (Authorization request) b (ctx_waitUntil request).

(** The value of a sequence of decimal digits read after the value [a]. *)
Fixpoint uint_value (d : Decimal.uint) (a : Z) : Z :=
  match d with
  | Nil => a
  | D0 d' => uint_value d' (10 * a + 0)
  | D1 d' => uint_value d' (10 * a + 1)
  | D2 d' => uint_value d' (10 * a + 2)
  | D3 d' => uint_value d' (10 * a + 3)
  | D4 d' => uint_value d' (10 * a + 4)
  | D5 d' => uint_value d' (10 * a + 5)
  | D6 d' => uint_value d' (10 * a + 6)
  | D7 d' => uint_value d' (10 * a + 7)
  | D8 d' => uint_value d' (10 * a + 8)
  | D9 d' => uint_value d' (10 * a + 9)
  end.

(** The count that [getClickCount] reads from the Click Store. *)
Definition click_count (clicks : gmap string string) (slug : string) : Z :=
  finite_or_zero (parseInt (match clicks !! slug with
                            | None => "0"
                            | Some text => text
                            end)).

(** The integers that a double holds exactly, with their successor. *)
Definition safe_integer (n : Z) : Prop := - 2 ^ 53 <= n < 2 ^ 53.

(** The status of the response, when the handler returned one. *)
Definition status_of (r : result Response * State) : option nat :=
  match fst r with
  | Ok resp => Some (status resp)
  | Throw _ => None
  end.

(** The body's [url] is a string that starts with [http]. *)
Definition url_starts_with_http (url : jsval) : bool :=
  (typeof_string url && startsWith (string_of url) "http")%bool.

(** The body supplies a slug that is not empty. *)
Definition supplies_slug (b : parsed_body) : bool :=
  match b with
  | BodyObj _ (Some s) => negb (String.eqb s "")
  | _ => false
  end.

(** [s] ends with [suffix]. *)
Definition ends_with (s suffix : string) : Prop := exists front, s = front ++ suffix.

(** C2 as the specification words it, at one shorten request, one later
    GET and one state: a valid authorized shorten request with a slug that
    the Link Store does not hold returns a short URL ending in [/slug],
    and the GET of [/slug] that follows is a 301 redirect to the url. *)
Definition shorten_then_redirect_claim `{Platform} (request g : Request) (st : State)
  : Prop :=
  forall u s,
    method request = "POST" -> pathname request = "/api/shorten" ->
    validateApiKey request (env st) <> None ->
    json_body request = BodyObj (Some (JString u)) (Some s) ->
    startsWith u "http" = true ->
    URL_KV (env st) !! s = None ->
    method g = "GET" -> pathname g = "/" ++ s ->
    exists shortUrl st',
      fetch request st = (Ok (json_response (JsonShort shortUrl s) 200), st') /\
      ends_with shortUrl ("/" ++ s) /\
      fst (fetch g st') = Ok (mkResponse 301 NoBody (URL_href u)).

(** C3 as the specification words it, at one request and state: an
    authorized shorten request with a custom slug that the Link Store
    holds is answered with 500, and the record stays. *)
Definition duplicate_slug_claim `{Platform} (request : Request) (st : State) : Prop :=
  forall url s text,
    method request = "POST" -> pathname request = "/api/shorten" ->
    validateApiKey request (env st) <> None ->
    json_body request = BodyObj url (Some s) ->
    URL_KV (env st) !! s = Some text ->
    status_of (fetch request st) = Some 500%nat /\
    URL_KV (env (snd (fetch request st))) !! s = Some text.

(** C9 as the specification words it, at one request and state: an
    authorized delete request whose body supplies no non-empty slug is
    answered with 400. *)
Definition delete_missing_slug_claim `{Platform} (request : Request) (st : State) : Prop :=
  method request = "DELETE" -> pathname request = "/api/delete" ->
  validateApiKey request (env st) <> None ->
  supplies_slug (json_body request) = false ->
  status_of (fetch request st) = Some 400%nat.


(** ** Vocabulary of the further properties *)

(** A computation that leaves the bindings, both stores and the clock as
    they are; it may log reads and consume random draws. *)
Definition read_only {A : Type} (m : M A) : Prop :=
  forall st, env (snd (m st)) = env st /\ Date_now (snd (m st)) = Date_now st.

(** The same request with another Authorization header and body. *)
Definition with_credentials (request : Request) (auth : option string) (b : parsed_body)
  : Request :=
  mkRequest (method request) (pathname request) (origin request) auth b
            (ctx_waitUntil request).

(** The same request on another path. *)
Definition with_pathname (request : Request) (path : string) : Request :=
  mkRequest (method request) path (origin request) (Authorization request)
            (json_body request) (ctx_waitUntil request).

(** Some route of the table matches the request. *)
Definition routed (request : Request) : bool :=
  let m := method request in
  let path := pathname request in
  ((String.eqb m "GET" && String.eqb path "/")
   || (String.eqb m "POST" && String.eqb path "/api/shorten")
   || (String.eqb m "DELETE" && String.eqb path "/api/delete")
   || (String.eqb m "GET" && is_info_path path)
   || (String.eqb m "GET" && is_list_path path)
   || (String.eqb m "GET" && negb (startsWith path "/api/")))%bool.

(** The slug that the redirect route reads from the path. *)
Definition redirect_slug (path : string) : string :=
  if startsWith path "/" then str_from 1 path else path.

(** What one request may do to the bindings: nothing; or, on the shorten
    route, bind one slug that the Link Store read as free to the JSON of a
    record for it; or, on the delete route, remove one slug that the store
    held; or, on a GET, raise the counter of the slug of the path by one. *)
Definition footprint `{Platform} (request : Request) (st : State) (resp : Response)
    (e' : Env) : Prop :=
  let e := env st in
  e' = e
  \/ (method request = "POST" /\ pathname request = "/api/shorten" /\
      exists s u slug,
        json_body request = BodyObj (Some (JString u)) slug /\
        startsWith u "http" = true /\
        truthy_text (URL_KV e !! s) = false /\
        resp = json_response (JsonShort (origin request ++ "/" ++ s) s) 200 /\
        e' = set_ns_map LinkStore
               (<[s := JSON_stringify (mkLink u s (Date_now st))]> (URL_KV e)) e)
  \/ (method request = "DELETE" /\ pathname request = "/api/delete" /\
      exists s url,
        json_body request = BodyObj url (Some s) /\
        truthy_text (URL_KV e !! s) = true /\
        resp = json_response (JsonMessage "link deleted") 200 /\
        e' = set_ns_map LinkStore (delete s (URL_KV e)) e)
  \/ (method request = "GET" /\
      exists text,
        URL_KV e !! redirect_slug (pathname request) = Some text /\
        e' = set_ns_map ClickStore
               (<[redirect_slug (pathname request)
                  := String_of (click_count (LINK_CLICKS_KV e)
                                  (redirect_slug (pathname request)) + 1)]>
                  (LINK_CLICKS_KV e)) e).

(** The slug that six draws starting at the cursor [c] spell. *)
Definition drawn_slug (r : nat -> nat) (c : nat) : string :=
  chars_at (Nat.modulo (r c) 62) ++ chars_at (Nat.modulo (r (1 + c)%nat) 62)
  ++ chars_at (Nat.modulo (r (2 + c)%nat) 62) ++ chars_at (Nat.modulo (r (3 + c)%nat) 62)
  ++ chars_at (Nat.modulo (r (4 + c)%nat) 62) ++ chars_at (Nat.modulo (r (5 + c)%nat) 62).

(** The [k]-th slug that [getUniqueSlug] generates from the state [st],
    counted from 0: the six draws that follow the [6 * k] draws of the
    slugs before it. *)
Definition candidate (st : State) (k : nat) : string :=
  drawn_slug (Math_random st) (6 * k + random_cursor st)%nat.

(** The state once [getUniqueSlug] has generated the first [drawn]
    candidates and read the Link Store for the first [checked] of them, in
    their order: nothing but the log and the random cursor has moved. *)
Definition after_checks (st : State) (drawn checked : nat) : State :=
  mkState (env st)
          (kv_log st ++ map (fun j => KVGet LinkStore (candidate st j)) (seq 0 checked))
          (Math_random st) (6 * drawn + random_cursor st)%nat (Date_now st).

(** The state once the shorten handler has checked the candidates
    [0], ..., [k] and stored the record of the url [u] under the [k]-th. *)
Definition after_store `{Platform} (st : State) (u : string) (k : nat) : State :=
  let s := candidate st k in
  let text := JSON_stringify (mkLink u s (Date_now st)) in
  mkState (set_ns_map LinkStore (<[s := text]> (URL_KV (env st))) (env st))
          (kv_log st ++ map (fun j => KVGet LinkStore (candidate st j)) (seq 0 (S k))
             ++ [KVPut LinkStore s text])
          (Math_random st) (6 * S k + random_cursor st)%nat (Date_now st).

(** The first of the [n] candidates [c j], [c (j + 1)], ... that the
    namespace reads as free. *)
Fixpoint first_free (m : gmap string string) (c : nat -> string) (j n : nat)
  : option nat :=
  match n with
  | O => None
  | S n' => if truthy_text (m !! c j) then first_free m c (S j) n' else Some j
  end.

(** The secret binding gives no usable key list: the secret store
    rejects, there is no value or an empty one, the text is not JSON, or it
    is JSON without an [includes] method (neither an array nor a string). *)
Definition misconfigured `{Platform} (e : Env) : Prop :=
  match resolve_secret (API_KEYS e) with
  | None => True
  | Some None => True
  | Some (Some secret) =>
      secret = "" \/
      match JSON_parse secret with
      | None => True
      | Some (JArray _) => False
      | Some (JString _) => False
      | Some _ => True
      end
  end.

(** The info record that the link routes build for a key: none when the
    key is missing or its text parses to a falsy value. *)
Definition stored_info `{Platform} (e : Env) (key : string) : option LinkInfo :=
  match URL_KV e !! key with
  | None => None
  | Some text =>
      match JSON_parse text with
      | None => None
      | Some v =>
          if truthy (Some v)
          then Some (mkInfo (get_prop v "slug") (get_prop v "originalUrl")
                            (get_prop v "created") (click_count (LINK_CLICKS_KV e) key))
          else None
      end
  end.

(** Every text of the Click Store is the decimal form of a positive
    integer. *)
Definition clicks_wf (clicks : gmap string string) : Prop :=
  forall key text, clicks !! key = Some text -> exists n, 1 <= n /\ text = String_of n.

(** The state after the same request was handled [n] times in a row. *)
Fixpoint fetch_times `{Platform} (n : nat) (request : Request) (st : State) : State :=
  match n with
  | O => st
  | S n' => fetch_times n' request (snd (fetch request st))
  end.

(** * Properties *)

(** ** The reference platform on sample texts *)

Example reference_parse_keys :
  Reference.parse (Reference.array_text ["key-1"; "key-2"])
  = Some (JArray [JString "key-1"; JString "key-2"]).
Proof. reflexivity. Qed.

Example reference_parse_link :
  Reference.parse (Reference.stringify (mkLink "https://a.com" "abc123" "2024-01-01T00:00:00.000Z"))
  = Some (link_json (mkLink "https://a.com" "abc123" "2024-01-01T00:00:00.000Z")).
Proof. reflexivity. Qed.

Example reference_decode_bad : Reference.decode "%" = None.
Proof. reflexivity. Qed.

(** ** Strings *)

Lemma prefix_split (p s : string) :
  String.prefix p s = true -> s = p ++ str_from (String.length p) s.
Proof.
  revert s; induction p as [|c p IH]; intros s Hp.
  - reflexivity.
  - destruct s as [|d s]; simpl in Hp; [discriminate|].
    destruct (Ascii.ascii_dec c d) as [->|]; [|discriminate].
    change (String d s = String d (p ++ str_from (String.length p) s)).
    f_equal. apply IH, Hp.
Qed.

Lemma str_from_app (p s : string) : str_from (String.length p) (p ++ s) = s.
Proof. induction p as [|c p IH]; [reflexivity | exact IH]. Qed.

Lemma prefix_app (p s : string) : String.prefix p (p ++ s) = true.
Proof.
  induction p as [|c p IH].
  - now destruct s.
  - change (String.prefix (String c p) (String c (p ++ s)) = true). simpl.
    destruct (Ascii.ascii_dec c c); [apply IH | congruence].
Qed.

Lemma append_assoc (a b c : string) : (a ++ b) ++ c = a ++ (b ++ c).
Proof.
  induction a as [|x a IH]; [reflexivity|].
  change (String x ((a ++ b) ++ c) = String x (a ++ (b ++ c))). now rewrite IH.
Qed.

Lemma truthy_text_Some (s : string) : truthy_text (Some s) = true <-> s <> "".
Proof.
  unfold truthy_text. destruct (String.eqb_spec s ""); simpl; split; congruence.
Qed.

(** ** Authorization *)

Section Authorization.
Context `{Platform}.

(** Every success of [validateApiKey] comes from a Bearer header, a
    resolved non-empty secret that parses, and a positive [includes]. *)
Lemma validateApiKey_Some (request : Request) (e : Env) (keys : json) :
  validateApiKey request e = Some keys ->
  exists token secret,
    bearer request token /\
    resolve_secret (API_KEYS e) = Some (Some secret) /\ secret <> "" /\
    JSON_parse secret = Some keys /\
    includes keys token = Some true.
Proof.
  unfold validateApiKey, bearer.
  destruct (Authorization request) as [h|]; [|discriminate].
  destruct (negb (truthy_text (Some h)) || negb (startsWith h "Bearer "))%bool eqn:Hh;
    [discriminate|].
  apply orb_false_iff in Hh as [_ Hp]. apply negb_false_iff in Hp.
  set (token := str_from 7 h).
  destruct (resolve_secret (API_KEYS e)) as [[secret|]|] eqn:Hr; try discriminate.
  destruct (truthy_text (Some secret)) eqn:Hne; [|discriminate].
  apply truthy_text_Some in Hne.
  change (default "" (Some secret)) with secret. cbn [negb].
  destruct (JSON_parse secret) as [v|] eqn:Hv; [|discriminate].
  destruct (includes v token) as [[|]|] eqn:Hi; try discriminate.
  intros [= <-]. exists token, secret.
  split; [f_equal; apply (prefix_split "Bearer " h Hp)|]. auto.
Qed.

(** With a secret that parses to an array, a request is authorized
    exactly when its token is one of the array's strings. *)
Lemma validateApiKey_array (request : Request) (e : Env) (secret token : string)
    (items : list json) :
  bearer request token ->
  resolve_secret (API_KEYS e) = Some (Some secret) -> secret <> "" ->
  JSON_parse secret = Some (JArray items) ->
  validateApiKey request e
  = if existsb (fun v => match v with
                         | JString s => String.eqb s token
                         | _ => false
                         end) items
    then Some (JArray items) else None.
Proof.
  unfold bearer, validateApiKey. intros -> -> Hne Hp.
  change (str_from 7 ("Bearer " ++ token)) with token.
  unfold startsWith. rewrite prefix_app.
  apply truthy_text_Some in Hne. rewrite Hne. simpl. rewrite Hp. simpl.
  now destruct (existsb _ items).
Qed.

Lemma includes_array_In (items : list json) (token : string) :
  existsb (fun v => match v with
                    | JString s => String.eqb s token
                    | _ => false
                    end) items = true <-> In (JString token) items.
Proof.
  rewrite existsb_exists. split.
  - intros (v & Hin & Hv). destruct v; try discriminate.
    apply String.eqb_eq in Hv. now subst.
  - intros Hin. exists (JString token). split; [assumption|]. apply String.eqb_refl.
Qed.

End Authorization.

Section AuthorizationClaims.
Context `{Platform}.

(** C1 (where the code departs from it). When the secret parses to a JSON
    string instead of an array, [includes] is the substring search of
    strings: a Bearer token that occurs anywhere inside that string is
    authorized, although the secret is not an array having the token as
    an element. *)
Theorem validateApiKey_string_secret (request : Request) (e : Env)
    (secret token text : string) :
  bearer request token ->
  resolve_secret (API_KEYS e) = Some (Some secret) ->
  truthy_text (Some secret) = true ->
  JSON_parse secret = Some (JString text) ->
  str_includes text token = true ->
  validateApiKey request e = Some (JString text).
Proof.
  unfold bearer, validateApiKey. intros -> -> Hne Hp Hin.
  change (str_from 7 ("Bearer " ++ token)) with token.
  unfold startsWith. rewrite prefix_app, Hne. simpl. rewrite Hp. simpl.
  now rewrite Hin.
Qed.

(** A request that needs a key and has none that validates is answered
    with 401 and leaves the state alone, provided that, on the single-link
    route, the slug of the path decodes. *)
Lemma unauthorized_401 (request : Request) (st : State) :
  requires_key request = true ->
  validateApiKey request (env st) = None ->
  (is_info_path (pathname request) = true ->
   decodeURIComponent (info_path_slug (pathname request)) <> None) ->
  fetch request st = (Ok unauthorized, st).
Proof.
  unfold requires_key, fetch. intros Hreq Hauth Hdec.
  destruct (String.eqb_spec (method request) "GET") as [Hm|Hm].
  - rewrite Hm in Hreq. simpl in Hreq.
    destruct (String.eqb_spec (pathname request) "/") as [Hp|Hp].
    { rewrite Hp in Hreq. discriminate. }
    rewrite Hm. simpl.
    destruct (is_info_path (pathname request)) eqn:Hinfo.
    + specialize (Hdec eq_refl). unfold handle_info, info_path_slug in *.
      destruct (decodeURIComponent _); [|congruence].
      unfold try_catch, bind, get_env. rewrite Hauth. reflexivity.
    + simpl in Hreq. rewrite Hreq.
      unfold handle_list, try_catch, bind, get_env. rewrite Hauth. reflexivity.
  - simpl in *.
    destruct (String.eqb (method request) "POST" && String.eqb (pathname request) "/api/shorten")%bool.
    + unfold handle_shorten, try_catch, bind, get_env. rewrite Hauth. reflexivity.
    + simpl in Hreq. rewrite orb_false_r in Hreq. rewrite Hreq.
      unfold handle_delete, try_catch, bind, get_env. rewrite Hauth. reflexivity.
Qed.

(** C4 (where the code departs from it). On the single-link route the
    slug is decoded before the key is validated: a path whose slug has a
    malformed percent escape is answered with 500, whatever the
    Authorization header is, also when it is missing. *)
Theorem info_malformed_escape_500 (request : Request) (st : State) :
  method request = "GET" ->
  is_info_path (pathname request) = true ->
  decodeURIComponent (info_path_slug (pathname request)) = None ->
  fetch request st = (Ok (text_response "server error" 500), st).
Proof.
  intros Hm Hinfo Hdec.
  unfold fetch. rewrite Hm.
  destruct (String.eqb_spec (pathname request) "/") as [Hp|Hp].
  { rewrite Hp in Hinfo. discriminate. }
  simpl. rewrite Hinfo. unfold handle_info, info_path_slug in *.
  rewrite Hdec. reflexivity.
Qed.

End AuthorizationClaims.

(** ** Shorten and delete: validation and errors *)

Ltac run :=
  cbv beta iota delta [try_catch bind ret throw get_env get_now read_body fst snd].

Section Mutations.
Context `{Platform}.

Lemma fetch_shorten (request : Request) (st : State) :
  method request = "POST" -> pathname request = "/api/shorten" ->
  fetch request st = try_catch (handle_shorten request)
                       (fun _ => ret (text_response "server error" 500)) st.
Proof. unfold fetch, try_catch. now intros -> ->. Qed.

Lemma fetch_delete (request : Request) (st : State) :
  method request = "DELETE" -> pathname request = "/api/delete" ->
  fetch request st = try_catch (handle_delete request)
                       (fun _ => ret (text_response "server error" 500)) st.
Proof. unfold fetch, try_catch. now intros -> ->. Qed.

(** A url that passes the test of the shorten handler is a non-empty
    string. *)
Lemma url_ok_string (url : jsval) :
  url_starts_with_http url = true ->
  exists u, url = Some (JString u) /\ truthy (Some (JString u)) = true
            /\ startsWith u "http" = true.
Proof.
  unfold url_starts_with_http. intros Hurl.
  apply andb_true_iff in Hurl as [Hty Hpre].
  destruct url as [[]|]; try discriminate. simpl in Hpre.
  eexists; split; [reflexivity|]. split; [|assumption].
  simpl. destruct s; [discriminate | reflexivity].
Qed.

(** The shorten handler rejects a url that is not a string starting with
    [http] before it touches anything. *)
Lemma shorten_invalid_url (request : Request) (st : State) (keys : json)
    (url : jsval) (slug : option string) :
  method request = "POST" -> pathname request = "/api/shorten" ->
  validateApiKey request (env st) = Some keys ->
  json_body request = BodyObj url slug ->
  url_starts_with_http url = false ->
  fetch request st = (Ok (json_response (JsonError "Invalid URL") 400), st).
Proof.
  intros Hm Hp Hauth Hb Hurl. rewrite fetch_shorten by assumption.
  unfold handle_shorten. run. rewrite Hauth, Hb. run.
  unfold url_starts_with_http in Hurl.
  destruct (truthy url); [|reflexivity].
  destruct (typeof_string url); [|reflexivity].
  simpl in Hurl. now rewrite Hurl.
Qed.

(** A body that is not JSON, or is [null], makes the shorten handler throw
    before the url is tested: the answer is 500. *)
Lemma shorten_unreadable_body_500 (request : Request) (st : State) (keys : json) :
  method request = "POST" -> pathname request = "/api/shorten" ->
  validateApiKey request (env st) = Some keys ->
  json_body request = BodyReject \/ json_body request = BodyNull ->
  fetch request st = (Ok (json_response (JsonError "Server Error") 500), st).
Proof.
  intros Hm Hp Hauth Hb. rewrite fetch_shorten by assumption.
  unfold handle_shorten. run. rewrite Hauth. now destruct Hb as [-> | ->].
Qed.

(** C7. An authorized POST /api/shorten whose body's [url] is not a string
    starting with [http] is answered with 400, and the final state is the
    initial one: no KV call is logged and no store changes. *)
Theorem shorten_invalid_url_400 (request : Request) (st : State) (keys : json)
    (url : jsval) (slug : option string) :
  method request = "POST" -> pathname request = "/api/shorten" ->
  validateApiKey request (env st) = Some keys ->
  json_body request = BodyObj url slug ->
  url_starts_with_http url = false ->
  fetch request st = (Ok (json_response (JsonError "Invalid URL") 400), st) /\
  kv_log (snd (fetch request st)) = kv_log st /\
  env (snd (fetch request st)) = env st.
Proof.
  intros Hm Hp Hauth Hb Hurl.
  rewrite (shorten_invalid_url request st keys url slug) by assumption.
  repeat split.
Qed.

(** C9 (amended). An authorized DELETE /api/delete whose body is a JSON
    value other than [null] with no slug, or with the empty slug, is
    answered with 400 and the message [missing slug]; the state is
    unchanged. *)
Theorem delete_missing_slug_400 (request : Request) (st : State) (keys : json)
    (url : jsval) (slug : option string) :
  method request = "DELETE" -> pathname request = "/api/delete" ->
  validateApiKey request (env st) = Some keys ->
  json_body request = BodyObj url slug ->
  truthy_text slug = false ->
  fetch request st = (Ok (json_response (JsonError "missing slug") 400), st).
Proof.
  intros Hm Hp Hauth Hb Hslug. rewrite fetch_delete by assumption.
  unfold handle_delete. run. rewrite Hauth, Hb. run. now rewrite Hslug.
Qed.

(** A body that is not JSON, or is [null], makes the delete handler throw
    before the slug is tested: the answer is 500. *)
Lemma delete_unreadable_body_500 (request : Request) (st : State) (keys : json) :
  method request = "DELETE" -> pathname request = "/api/delete" ->
  validateApiKey request (env st) = Some keys ->
  json_body request = BodyReject \/ json_body request = BodyNull ->
  fetch request st = (Ok (json_response (JsonError "server error") 500), st).
Proof.
  intros Hm Hp Hauth Hb. rewrite fetch_delete by assumption.
  unfold handle_delete. run. rewrite Hauth. now destruct Hb as [-> | ->].
Qed.

(** C3 (amended). An authorized shorten request with a custom slug that
    the Link Store holds never changes a store. When its url passes the
    validation it is answered with 500 and the final state is the initial
    one with a single logged read of that slug: the check ran once, and no
    slug was generated. When its url fails the validation it is answered
    with 400 before any check. *)
Theorem shorten_duplicate_custom_slug (request : Request) (st : State)
    (keys : json) (url : jsval) (slug text : string) :
  method request = "POST" -> pathname request = "/api/shorten" ->
  validateApiKey request (env st) = Some keys ->
  json_body request = BodyObj url (Some slug) ->
  truthy_text (Some slug) = true ->
  URL_KV (env st) !! slug = Some text -> truthy_text (Some text) = true ->
  fetch request st
  = (if url_starts_with_http url
     then (Ok (json_response (JsonError "Server Error") 500),
           record (KVGet LinkStore slug) st)
     else (Ok (json_response (JsonError "Invalid URL") 400), st)) /\
  env (snd (fetch request st)) = env st.
Proof.
  intros Hm Hp Hauth Hb Hslug Hget Htext.
  destruct (url_starts_with_http url) eqn:Hurl.
  - assert (Hf : fetch request st
                 = (Ok (json_response (JsonError "Server Error") 500),
                    record (KVGet LinkStore slug) st)).
    { rewrite fetch_shorten by assumption.
      apply url_ok_string in Hurl as (u & -> & Htr & Hpre).
      unfold handle_shorten. run. rewrite Hauth, Hb. run.
      change (string_of (Some (JString u))) with u. rewrite Htr, Hpre.
      cbn [negb orb typeof_string].
      unfold getUniqueSlug, getUniqueSlug_loop, custom_given, kv_get.
      rewrite Hslug. run. cbn [ns_map]. rewrite Hget, Htext. reflexivity. }
    rewrite Hf. split; reflexivity.
  - rewrite (shorten_invalid_url request st keys url (Some slug)) by assumption.
    split; reflexivity.
Qed.

End Mutations.

(** ** Redirects and deletion *)

Section Redirects.
Context `{Platform}.

Lemma prefix_empty (s : string) : String.prefix "" s = true.
Proof. now destruct s. Qed.

Lemma slash_slug_not_root (slug : string) :
  truthy_text (Some slug) = true -> String.eqb ("/" ++ slug) "/" = false.
Proof.
  intros Hs. apply truthy_text_Some in Hs. apply String.eqb_neq.
  intros [= Heq]. contradiction.
Qed.

(** What [fetch] does with a GET of [/slug] for a non-empty slug whose
    path is not one of the link-information routes. *)
Lemma fetch_get_slug (g : Request) (st : State) (slug : string) :
  method g = "GET" -> pathname g = "/" ++ slug ->
  truthy_text (Some slug) = true ->
  is_info_path (pathname g) = false -> is_list_path (pathname g) = false ->
  fetch g st
  = if startsWith (pathname g) "/api/"
    then (Ok (text_response "not found" 404), st)
    else try_catch
           (try_catch
              (let! stored := kv_get_json LinkStore slug in
               if negb (truthy (Some stored)) then ret (text_response "not found" 404)
               else
                 do! incrementClickCount slug in
                 Response_redirect (get_prop stored "originalUrl") 301)
              (fun _ => ret (text_response "server error" 500)))
           (fun _ => ret (text_response "server error" 500)) st.
Proof.
  intros Hm Hp Hs Hinfo Hlist. unfold fetch. rewrite Hm, Hinfo, Hlist.
  rewrite Hp at 1. rewrite (slash_slug_not_root slug Hs).
  change (String.eqb "GET" "POST") with false.
  change (String.eqb "GET" "DELETE") with false.
  change (String.eqb "GET" "GET") with true.
  cbn [andb negb].
  destruct (startsWith (pathname g) "/api/"); cbn [negb]; [reflexivity|].
  unfold handle_redirect. rewrite Hp.
  assert (Hslash : startsWith ("/" ++ slug) "/" = true) by apply prefix_app.
  rewrite Hslash. change (str_from 1 ("/" ++ slug)) with slug.
  rewrite Hs. cbn [negb].
  now destruct (ctx_waitUntil g).
Qed.

(** A GET of the path of a slug that the Link Store does not hold is
    answered with 404. *)
Lemma get_missing_slug_404 (g : Request) (st : State) (slug : string) :
  method g = "GET" -> pathname g = "/" ++ slug ->
  truthy_text (Some slug) = true ->
  is_info_path (pathname g) = false -> is_list_path (pathname g) = false ->
  URL_KV (env st) !! slug = None ->
  fst (fetch g st) = Ok (text_response "not found" 404).
Proof.
  intros Hm Hp Hs Hinfo Hlist Hnone.
  rewrite (fetch_get_slug g st slug) by assumption.
  destruct (startsWith (pathname g) "/api/"); [reflexivity|].
  unfold kv_get_json, kv_get. run. cbn [ns_map]. now rewrite Hnone.
Qed.

(** C8. An authorized delete request for a slug: when the Link Store does
    not hold the slug, the answer is 404 and the only effect is the logged
    read, no store changes; when it holds it, the answer is 200, the Link
    Store loses exactly that key, the Click Store and the other bindings
    are unchanged, and a following GET of the slug's path that reaches the
    redirect route is answered with 404. *)
Theorem delete_link (request : Request) (st : State) (keys : json) (url : jsval)
    (slug : string) :
  method request = "DELETE" -> pathname request = "/api/delete" ->
  validateApiKey request (env st) = Some keys ->
  json_body request = BodyObj url (Some slug) ->
  truthy_text (Some slug) = true ->
  (URL_KV (env st) !! slug = None ->
   fetch request st
   = (Ok (json_response (JsonError "slug not found") 404), record (KVGet LinkStore slug) st))
  /\
  (forall text, URL_KV (env st) !! slug = Some text -> truthy_text (Some text) = true ->
   exists st',
     fetch request st = (Ok (json_response (JsonMessage "link deleted") 200), st') /\
     URL_KV (env st') = delete slug (URL_KV (env st)) /\
     LINK_CLICKS_KV (env st') = LINK_CLICKS_KV (env st) /\
     API_KEYS (env st') = API_KEYS (env st) /\
     kv_log st' = (kv_log st ++ [KVGet LinkStore slug; KVDelete LinkStore slug])%list /\
     forall g, method g = "GET" -> pathname g = "/" ++ slug ->
               is_info_path (pathname g) = false -> is_list_path (pathname g) = false ->
               fst (fetch g st') = Ok (text_response "not found" 404)).
Proof.
  intros Hm Hp Hauth Hb Hs. split.
  - intros Hnone. rewrite fetch_delete by assumption.
    unfold handle_delete. run. rewrite Hauth, Hb. run. rewrite Hs.
    cbn [negb]. unfold kv_get. cbn [ns_map default from_option id]. now rewrite Hnone.
  - intros text Hsome Htext. eexists. split; [|split; [|split; [|split; [|split]]]].
    + rewrite fetch_delete by assumption.
      unfold handle_delete. run. rewrite Hauth, Hb. run. rewrite Hs.
      cbn [negb]. unfold kv_get, kv_delete. cbn [ns_map default from_option id].
      rewrite Hsome, Htext. cbn [negb]. reflexivity.
    + reflexivity.
    + reflexivity.
    + reflexivity.
    + cbn [kv_log record with_env]. now rewrite <- app_assoc.
    + intros g Hg Hgp Hinfo Hlist.
      apply (get_missing_slug_404 g _ slug); try assumption.
      cbn [env record with_env URL_KV set_ns_map]. apply lookup_delete_eq.
Qed.

End Redirects.

(** ** Slug generation *)

Lemma chars_at_alnum (i : nat) :
  (i < 62)%nat -> exists c, chars_at i = String c EmptyString /\ is_alnum c = true.
Proof.
  intros Hi.
  do 62 (destruct i as [|i]; [eexists; split; reflexivity|]).
  lia.
Qed.

(** [generateSlug] always returns: a well-formed slug, at the cost of six
    draws and nothing else. *)
Lemma generateSlug_spec (st : State) :
  exists s, generateSlug st = (Ok s, advance 6 st) /\ is_generated_slug s = true.
Proof.
  unfold generateSlug, generateSlug_loop, random_index. run.
  cbn [env kv_log Math_random random_cursor Date_now].
  set (r := Math_random st). set (c := random_cursor st).
  assert (Hb : forall d, (d `mod` String.length chars < 62)%nat).
  { intros d. apply Nat.mod_upper_bound. discriminate. }
  destruct (chars_at_alnum _ (Hb (r c))) as (c0 & -> & H0).
  destruct (chars_at_alnum _ (Hb (r (S c)))) as (c1 & -> & H1).
  destruct (chars_at_alnum _ (Hb (r (S (S c))))) as (c2 & -> & H2).
  destruct (chars_at_alnum _ (Hb (r (S (S (S c)))))) as (c3 & -> & H3).
  destruct (chars_at_alnum _ (Hb (r (S (S (S (S c))))))) as (c4 & -> & H4).
  destruct (chars_at_alnum _ (Hb (r (S (S (S (S (S c)))))))) as (c5 & -> & H5).
  eexists. split; [reflexivity|].
  unfold is_generated_slug. cbv beta iota delta [String.append].
  cbn [String.length Nat.eqb all_chars andb].
  now rewrite H0, H1, H2, H3, H4, H5.
Qed.

(** The slug that [generateSlug] returns, as a function of the draws. *)
Lemma generateSlug_value (st : State) :
  generateSlug st = (Ok (drawn_slug (Math_random st) (random_cursor st)), advance 6 st).
Proof.
  unfold generateSlug, generateSlug_loop, random_index, drawn_slug. run.
  cbn [env kv_log Math_random random_cursor Date_now].
  change (String.length chars) with 62%nat.
  assert (Hb : forall d, (d `mod` 62 < 62)%nat).
  { intros d. apply Nat.mod_upper_bound. discriminate. }
  set (r := Math_random st). set (c := random_cursor st). cbn [Nat.add].
  destruct (chars_at_alnum _ (Hb (r c))) as (x0 & -> & _).
  destruct (chars_at_alnum _ (Hb (r (S c)))) as (x1 & -> & _).
  destruct (chars_at_alnum _ (Hb (r (S (S c))))) as (x2 & -> & _).
  destruct (chars_at_alnum _ (Hb (r (S (S (S c)))))) as (x3 & -> & _).
  destruct (chars_at_alnum _ (Hb (r (S (S (S (S c))))))) as (x4 & -> & _).
  destruct (chars_at_alnum _ (Hb (r (S (S (S (S (S c)))))))) as (x5 & -> & _).
  reflexivity.
Qed.

(** ** The candidates of [getUniqueSlug], one by one *)

Lemma candidate_generated (st : State) (k : nat) :
  is_generated_slug (candidate st k) = true.
Proof.
  destruct (generateSlug_spec (mkState (env st) (kv_log st) (Math_random st)
                                       (6 * k + random_cursor st)%nat (Date_now st)))
    as (s & Hs & Hwf).
  rewrite generateSlug_value in Hs. injection Hs as Hs.
  rewrite <- Hs in Hwf. exact Hwf.
Qed.

Lemma candidate_nonempty (st : State) (k : nat) : candidate st k <> "".
Proof.
  intros Heq. pose proof (candidate_generated st k) as Hwf.
  rewrite Heq in Hwf. discriminate.
Qed.

Lemma first_free_Some (m : gmap string string) (c : nat -> string) (n : nat) :
  forall j k, first_free m c j n = Some k ->
    (j <= k < j + n)%nat /\ truthy_text (m !! c k) = false /\
    forall i, (j <= i < k)%nat -> truthy_text (m !! c i) = true.
Proof.
  induction n as [|n IH]; intros j k; cbn [first_free]; [discriminate|].
  destruct (truthy_text (m !! c j)) eqn:Hj.
  - intros Hk. apply IH in Hk as (Hr & Hf & Hbefore).
    split; [lia|]. split; [exact Hf|]. intros i Hi.
    destruct (Nat.eq_dec i j) as [->|Hne]; [exact Hj | apply Hbefore; lia].
  - intros [= <-]. split; [lia|]. split; [exact Hj|]. intros i Hi. lia.
Qed.

Lemma first_free_None (m : gmap string string) (c : nat -> string) (n : nat) :
  forall j, first_free m c j n = None ->
    forall i, (j <= i < j + n)%nat -> truthy_text (m !! c i) = true.
Proof.
  induction n as [|n IH]; intros j; cbn [first_free]; [intros _ i Hi; lia|].
  destruct (truthy_text (m !! c j)) eqn:Hj; [|discriminate].
  intros Hnone i Hi.
  destruct (Nat.eq_dec i j) as [->|Hne]; [exact Hj | apply (IH (S j) Hnone); lia].
Qed.

(** One read of the Link Store for the candidate [j]. *)
Lemma after_checks_read (st : State) (j : nat) :
  record (KVGet LinkStore (candidate st j)) (after_checks st (S j) j)
  = after_checks st (S j) (S j).
Proof.
  unfold record, after_checks. cbn [env kv_log Math_random random_cursor Date_now].
  f_equal. rewrite seq_S, map_app, <- app_assoc. reflexivity.
Qed.

(** The slug generated after the candidate [j] collided is the candidate
    [j + 1]. *)
Lemma after_checks_generate (st : State) (j : nat) :
  generateSlug (after_checks st (S j) (S j))
  = (Ok (candidate st (S j)), after_checks st (S (S j)) (S j)).
Proof.
  rewrite generateSlug_value. unfold advance, after_checks, candidate.
  cbn [env kv_log Math_random random_cursor Date_now].
  f_equal. f_equal. lia.
Qed.

(** The retry loop without a custom slug, from the candidate [j] on: it
    returns the first of the next [n] candidates that the store reads as
    free, having read the store for the candidates up to that one and
    generated none after it; when all [n] are taken it throws, having
    generated one more candidate than it checked. *)
Lemma getUniqueSlug_loop_generated (customSlug : option string) (st : State) :
  custom_given customSlug = false ->
  forall n j,
    getUniqueSlug_loop customSlug n (candidate st j) (after_checks st (S j) j)
    = match first_free (URL_KV (env st)) (candidate st) j n with
      | Some k => (Ok (candidate st k), after_checks st (S k) (S k))
      | None => (Throw exhausted, after_checks st (S (j + n)) (j + n))
      end.
Proof.
  intros Hcustom. induction n as [|n IH]; intros j.
  - cbn [getUniqueSlug_loop first_free]. unfold throw, exhausted.
    now rewrite Nat.add_0_r.
  - cbn [getUniqueSlug_loop first_free]. unfold bind at 1. unfold kv_get.
    rewrite after_checks_read.
    change (ns_map LinkStore (env (after_checks st (S j) j))) with (URL_KV (env st)).
    destruct (truthy_text (URL_KV (env st) !! candidate st j)); cbn [negb].
    + rewrite Hcustom. unfold bind. rewrite after_checks_generate, IH.
      now replace (S j + n)%nat with (j + S n)%nat by lia.
    + reflexivity.
Qed.

(** [getUniqueSlug] without a custom slug, with the five attempts of the
    handler, as a function of the store and the draws. *)
Lemma getUniqueSlug_generated (customSlug : option string) (st : State) :
  custom_given customSlug = false ->
  getUniqueSlug customSlug 5 st
  = match first_free (URL_KV (env st)) (candidate st) 0 5 with
    | Some k => (Ok (candidate st k), after_checks st (S k) (S k))
    | None => (Throw exhausted, after_checks st 6 5)
    end.
Proof.
  intros Hcustom. unfold getUniqueSlug.
  assert (Hfirst : match customSlug with
                   | Some s => if custom_given customSlug then ret s else generateSlug
                   | None => generateSlug
                   end = generateSlug).
  { destruct customSlug; [now rewrite Hcustom | reflexivity]. }
  rewrite Hfirst. unfold bind. rewrite generateSlug_value.
  assert (Hstart : advance 6 st = after_checks st 1 0).
  { unfold advance, after_checks. cbn [seq map]. now rewrite app_nil_r. }
  rewrite Hstart.
  apply (getUniqueSlug_loop_generated customSlug st Hcustom 5 0).
Qed.

Section Shorten.
Context `{Platform}.

(** The shorten handler on a valid request without a custom slug, as a
    function of the store and the draws. *)
Lemma shorten_generated (request : Request) (st : State) (keys : json) (url : jsval)
    (slug : option string) :
  method request = "POST" -> pathname request = "/api/shorten" ->
  validateApiKey request (env st) = Some keys ->
  json_body request = BodyObj url slug ->
  url_starts_with_http url = true ->
  truthy_text slug = false ->
  fetch request st
  = match first_free (URL_KV (env st)) (candidate st) 0 5 with
    | Some k =>
        (Ok (json_response
               (JsonShort (origin request ++ "/" ++ candidate st k) (candidate st k)) 200),
         after_store st (string_of url) k)
    | None => (Ok (json_response (JsonError "Server Error") 500), after_checks st 6 5)
    end.
Proof.
  intros Hm Hp Hauth Hb Hurl Hslug. rewrite fetch_shorten by assumption.
  apply url_ok_string in Hurl as (u & -> & Htr & Hpre).
  unfold handle_shorten. run. rewrite Hauth, Hb. run.
  change (string_of (Some (JString u))) with u. rewrite Htr, Hpre.
  cbn [negb orb typeof_string].
  rewrite (getUniqueSlug_generated slug st Hslug).
  destruct (first_free (URL_KV (env st)) (candidate st) 0 5) as [k|]; [|reflexivity].
  unfold kv_put, record, with_env, after_store, after_checks.
  cbn [env kv_log Math_random random_cursor Date_now ns_map].
  now rewrite <- app_assoc.
Qed.

Lemma getUniqueSlug_loop_empty_custom (n : nat) (s : string) (st : State) :
  getUniqueSlug_loop (Some "") n s st = getUniqueSlug_loop None n s st.
Proof.
  revert s st. induction n as [|n IH]; intros s st; [reflexivity|].
  cbn [getUniqueSlug_loop]. unfold bind.
  destruct (kv_get LinkStore s st) as [[existing|e] st1]; [|reflexivity].
  destruct (negb (truthy_text existing)); [reflexivity|].
  change (custom_given (Some "")) with false. change (custom_given None) with false.
  cbv beta iota.
  destruct (generateSlug st1) as [[s2|e] st2]; [apply IH | reflexivity].
Qed.

Lemma getUniqueSlug_empty_custom (n : nat) (st : State) :
  getUniqueSlug (Some "") n st = getUniqueSlug None n st.
Proof.
  unfold getUniqueSlug. change (custom_given (Some "")) with false. cbv beta iota.
  unfold bind. destruct (generateSlug st) as [[s|e] st1]; [|reflexivity].
  apply getUniqueSlug_loop_empty_custom.
Qed.

Lemma free_is_absent (m : gmap string string) (c : string) :
  stored_nonempty m -> truthy_text (m !! c) = false -> m !! c = None.
Proof.
  intros Hm Hc. destruct (m !! c) as [text|] eqn:Hget; [|reflexivity].
  specialize (Hm c text Hget). apply truthy_text_Some in Hm. congruence.
Qed.

Lemma collides_is_Some (m : gmap string string) (c : string) :
  collides m c -> is_Some (m !! c).
Proof. unfold collides. destruct (m !! c); [eauto | discriminate]. Qed.

Lemma supplies_slug_obj (url : jsval) (slug : option string) :
  supplies_slug (BodyObj url slug) = truthy_text slug.
Proof. now destruct slug. Qed.

(** C6. An authorized shorten request that supplies no slug (none, or the
    empty one), on a store without empty texts. With a body that is an
    object whose url passes the validation, the slug is resolved from the
    candidates that [generateSlug] draws, in their order: they all have six
    characters of [a-zA-Z0-9]; the handler reads the Link Store for the
    candidates 0, 1, ... one after the other, each one only after the one
    before was found in the store, and never for more than five. The first
    candidate that the store does not hold is the slug of the 200 response
    and the key of the record stored, and no candidate is generated after
    it. When the first five candidates are all held the answer is 500
    (SlugExhausted): five reads, six candidates generated, no store
    changed. A url that fails the validation is answered with 400, a body
    that is unreadable or [null] with 500, both without a read, a draw or a
    write. *)
Theorem shorten_without_slug (request : Request) (st : State) (keys : json) :
  method request = "POST" -> pathname request = "/api/shorten" ->
  validateApiKey request (env st) = Some keys ->
  supplies_slug (json_body request) = false ->
  stored_nonempty (URL_KV (env st)) ->
  (forall k, is_generated_slug (candidate st k) = true) /\
  match json_body request with
  | BodyObj url _ =>
      if url_starts_with_http url
      then
        (exists k,
           (k < 5)%nat /\
           (forall j, (j < k)%nat -> is_Some (URL_KV (env st) !! candidate st j)) /\
           URL_KV (env st) !! candidate st k = None /\
           fetch request st
           = (Ok (json_response
                    (JsonShort (origin request ++ "/" ++ candidate st k) (candidate st k))
                    200),
              after_store st (string_of url) k))
        \/
        ((forall j, (j < 5)%nat -> is_Some (URL_KV (env st) !! candidate st j)) /\
         fetch request st
         = (Ok (json_response (JsonError "Server Error") 500), after_checks st 6 5))
      else fetch request st = (Ok (json_response (JsonError "Invalid URL") 400), st)
  | BodyReject | BodyNull =>
      fetch request st = (Ok (json_response (JsonError "Server Error") 500), st)
  end.
Proof.
  intros Hm Hp Hauth Hslug Hstore. split; [apply candidate_generated|].
  destruct (json_body request) as [| |url slug] eqn:Hb.
  - apply (shorten_unreadable_body_500 request st keys); auto.
  - apply (shorten_unreadable_body_500 request st keys); auto.
  - rewrite supplies_slug_obj in Hslug.
    destruct (url_starts_with_http url) eqn:Hurl.
    + rewrite (shorten_generated request st keys url slug Hm Hp Hauth Hb Hurl Hslug).
      destruct (first_free (URL_KV (env st)) (candidate st) 0 5) as [k|] eqn:Hfirst.
      * apply first_free_Some in Hfirst as (Hk & Hfree & Hbefore).
        left. exists k. split; [lia|]. split; [|split; [|reflexivity]].
        -- intros j Hj. apply collides_is_Some. apply Hbefore. lia.
        -- now apply free_is_absent.
      * right. split; [|reflexivity].
        intros j Hj. apply collides_is_Some.
        apply (first_free_None _ _ _ _ Hfirst). lia.
    + apply (shorten_invalid_url request st keys url slug); auto.
Qed.

(** C10. An authorized shorten request whose body gives the empty string
    as slug is handled exactly as the same request without a slug: same
    response and same final state. The empty string is neither checked nor
    stored: with a url that passes the validation, the handler reads the
    Link Store for the candidates that [generateSlug] draws, which have six
    characters of [a-zA-Z0-9], one after the other, each one only after the
    one before was read as taken, and never for more than five; the first
    one read as free is the slug of the 200 response and the key of the
    record stored; when the first five are all read as taken the answer is
    500 and no store changes. A url that fails the validation is answered
    with 400 without a read, a draw or a write. *)
Theorem empty_slug_as_no_slug (request : Request) (st : State) (keys : json)
    (url : jsval) :
  method request = "POST" -> pathname request = "/api/shorten" ->
  validateApiKey request (env st) = Some keys ->
  json_body request = BodyObj url (Some "") ->
  fetch request st = fetch (with_body request (BodyObj url None)) st /\
  (forall k, is_generated_slug (candidate st k) = true /\ candidate st k <> "") /\
  if url_starts_with_http url
  then
    (exists k,
       (k < 5)%nat /\
       (forall j, (j < k)%nat -> collides (URL_KV (env st)) (candidate st j)) /\
       truthy_text (URL_KV (env st) !! candidate st k) = false /\
       fetch request st
       = (Ok (json_response
                (JsonShort (origin request ++ "/" ++ candidate st k) (candidate st k)) 200),
          after_store st (string_of url) k))
    \/
    ((forall j, (j < 5)%nat -> collides (URL_KV (env st)) (candidate st j)) /\
     fetch request st
     = (Ok (json_response (JsonError "Server Error") 500), after_checks st 6 5))
  else fetch request st = (Ok (json_response (JsonError "Invalid URL") 400), st).
Proof.
  intros Hm Hp Hauth Hb. split; [|split].
  - rewrite !fetch_shorten by assumption.
    unfold handle_shorten. run.
    change (validateApiKey (with_body request (BodyObj url None)) (env st))
      with (validateApiKey request (env st)).
    rewrite Hauth, Hb. cbn [json_body with_body origin]. run.
    destruct (negb (truthy url) || negb (typeof_string url)
              || negb (startsWith (string_of url) "http"))%bool; [reflexivity|].
    now rewrite getUniqueSlug_empty_custom.
  - intros k. split; [apply candidate_generated | apply candidate_nonempty].
  - destruct (url_starts_with_http url) eqn:Hurl.
    + rewrite (shorten_generated request st keys url (Some "") Hm Hp Hauth Hb Hurl eq_refl).
      destruct (first_free (URL_KV (env st)) (candidate st) 0 5) as [k|] eqn:Hfirst.
      * apply first_free_Some in Hfirst as (Hk & Hfree & Hbefore).
        left. exists k. split; [lia|]. split; [|split; [exact Hfree | reflexivity]].
        intros j Hj. apply Hbefore. lia.
      * right. split; [|reflexivity].
        intros j Hj. apply (first_free_None _ _ _ _ Hfirst). lia.
    + apply (shorten_invalid_url request st keys url (Some "")); auto.
Qed.

End Shorten.

(** ** Numbers: [parseInt] reads back what [String] writes *)

Lemma parse_digits_uint (d : Decimal.uint) (a : Z) :
  parse_digits (NilEmpty.string_of_uint d) (Some a) = Some (uint_value d a).
Proof.
  revert a. induction d; intros a; cbn [NilEmpty.string_of_uint parse_digits uint_value];
    try reflexivity; apply IHd.
Qed.

Lemma parse_digits_uint_start (d : Decimal.uint) :
  d <> Nil -> parse_digits (NilEmpty.string_of_uint d) None = Some (uint_value d 0).
Proof.
  destruct d; intros Hd; [congruence| ..];
    cbn [NilEmpty.string_of_uint parse_digits uint_value]; apply parse_digits_uint.
Qed.

Lemma uint_value_acc (d : Decimal.uint) (acc : positive) :
  uint_value d (Z.pos acc) = Z.pos (Pos.of_uint_acc d acc).
Proof.
  revert acc. induction d; intros acc; cbn [uint_value Pos.of_uint_acc];
    try reflexivity;
    match goal with
    | |- uint_value _ ?a = Z.pos (Pos.of_uint_acc _ ?b) =>
        replace a with (Z.pos b) by lia; apply IHd
    end.
Qed.

Lemma uint_value_of_uint (d : Decimal.uint) :
  uint_value d 0 = Z.of_N (Pos.of_uint d).
Proof.
  induction d; cbn [uint_value Pos.of_uint]; try reflexivity;
    try exact IHd;
    match goal with
    | |- uint_value _ ?a = Z.of_N (N.pos (Pos.of_uint_acc _ ?b)) =>
        change a with (Z.pos b); apply uint_value_acc
    end.
Qed.

Lemma digits_of_positive (p : positive) :
  parse_digits (NilEmpty.string_of_uint (Pos.to_uint p)) None = Some (Z.pos p).
Proof.
  rewrite parse_digits_uint_start by apply Unsigned.to_uint_nonnil.
  now rewrite uint_value_of_uint, Unsigned.of_to.
Qed.

(** A text that starts with a digit is read from its first character. *)
Lemma parseInt_digit_first (c : ascii) (rest : string) (k : Z) :
  digit_of c = Some k -> parseInt (String c rest) = parse_digits (String c rest) None.
Proof.
  intros Hc. unfold parseInt. cbn [skip_space].
  assert (Hsp : is_space c = false /\ c <> "-"%char /\ c <> "+"%char).
  { destruct c as [[] [] [] [] [] [] [] []]; try discriminate Hc; repeat split; discriminate. }
  destruct Hsp as (-> & Hminus & Hplus).
  destruct c as [[] [] [] [] [] [] [] []]; try reflexivity; congruence.
Qed.

Lemma uint_first_digit (d : Decimal.uint) :
  d <> Nil ->
  exists c rest k, NilEmpty.string_of_uint d = String c rest /\ digit_of c = Some k.
Proof. destruct d; intros Hd; [congruence| ..]; do 3 eexists; split; reflexivity. Qed.

Lemma nilzero_to_uint (p : positive) :
  NilZero.string_of_uint (Pos.to_uint p) = NilEmpty.string_of_uint (Pos.to_uint p).
Proof.
  unfold NilZero.string_of_uint.
  destruct (Pos.to_uint p) eqn:Hd; try reflexivity.
  now apply Unsigned.to_uint_nonnil in Hd.
Qed.

(** [parseInt(String(n))] is [n], for every integer. *)
Lemma parseInt_String_of (n : Z) : parseInt (String_of n) = Some n.
Proof.
  unfold String_of. destruct n as [|p|p]; cbn [Z.to_int NilZero.string_of_int].
  - reflexivity.
  - rewrite nilzero_to_uint.
    destruct (uint_first_digit (Pos.to_uint p) (Unsigned.to_uint_nonnil p))
      as (c & rest & k & Hs & Hc).
    rewrite Hs, (parseInt_digit_first c rest k Hc), <- Hs. apply digits_of_positive.
  - rewrite nilzero_to_uint. unfold parseInt. cbn [skip_space].
    change (is_space "-") with false. cbv beta iota.
    now rewrite digits_of_positive.
Qed.

Example parseInt_samples :
  parseInt "42abc" = Some 42 /\ parseInt "  -7" = Some (-7) /\ parseInt "abc" = None
  /\ parseInt "" = None /\ String_of 0 = "0" /\ String_of (-12) = "-12"
  /\ String_of 1 = "1".
Proof. repeat split; reflexivity. Qed.

(** ** Click counting *)

Section Clicks.
Context `{Platform}.

(** [incrementClickCount] always returns; it reads the counter once and
    writes the count it read plus one. *)
Lemma incrementClickCount_spec (slug : string) (st : State) :
  let clicks := LINK_CLICKS_KV (env st) in
  let next := String_of (click_count clicks slug + 1) in
  incrementClickCount slug st
  = (Ok tt,
     record (KVPut ClickStore slug next)
       (with_env (set_ns_map ClickStore (<[slug := next]> clicks) (env st))
          (record (KVGet ClickStore slug) st))).
Proof. reflexivity. Qed.

Lemma click_count_after_put (clicks : gmap string string) (slug : string) (n : Z) :
  click_count (<[slug := String_of n]> clicks) slug = n.
Proof. unfold click_count. now rewrite lookup_insert_eq, parseInt_String_of. Qed.

Lemma click_count_missing (clicks : gmap string string) (slug : string) :
  clicks !! slug = None -> click_count clicks slug = 0.
Proof. unfold click_count. now intros ->. Qed.

(** C5. A GET of the path of a slug that the Link Store holds, routed to
    the redirect handler, always returns, and it leaves the slug's counter
    one above the count read before (for counts that doubles hold
    exactly): the Click Store afterwards is the one before with the slug
    bound to the decimal text of that count plus one. When the counter key
    was missing the count read is 0 and the text written is [1]. The Link
    Store and the other counters are unchanged. *)
Theorem redirect_increments_click_count (g : Request) (st : State)
    (slug text : string) (stored : json) :
  method g = "GET" -> pathname g = "/" ++ slug ->
  truthy_text (Some slug) = true ->
  is_info_path (pathname g) = false -> is_list_path (pathname g) = false ->
  startsWith (pathname g) "/api/" = false ->
  URL_KV (env st) !! slug = Some text ->
  JSON_parse text = Some stored -> truthy (Some stored) = true ->
  safe_integer (click_count (LINK_CLICKS_KV (env st)) slug) ->
  exists resp st',
    fetch g st = (Ok resp, st') /\
    click_count (LINK_CLICKS_KV (env st')) slug
    = click_count (LINK_CLICKS_KV (env st)) slug + 1 /\
    LINK_CLICKS_KV (env st')
    = <[slug := String_of (click_count (LINK_CLICKS_KV (env st)) slug + 1)]>
        (LINK_CLICKS_KV (env st)) /\
    (LINK_CLICKS_KV (env st) !! slug = None ->
     LINK_CLICKS_KV (env st') !! slug = Some "1") /\
    (forall other, other <> slug ->
                   LINK_CLICKS_KV (env st') !! other = LINK_CLICKS_KV (env st) !! other) /\
    URL_KV (env st') = URL_KV (env st).
Proof.
  intros Hm Hp Hs Hinfo Hlist Hapi Hget Hparse Htruthy _.
  rewrite (fetch_get_slug g st slug) by assumption. rewrite Hapi.
  unfold kv_get_json, kv_get. run. cbn [ns_map]. rewrite Hget, Hparse, Htruthy.
  cbn [negb]. rewrite incrementClickCount_spec.
  cbn [env record with_env set_ns_map LINK_CLICKS_KV URL_KV].
  set (clicks := LINK_CLICKS_KV (env st)).
  set (st1 := record _ (with_env _ _)).
  assert (Hst1 : LINK_CLICKS_KV (env st1)
                 = <[slug := String_of (click_count clicks slug + 1)]> clicks
                 /\ URL_KV (env st1) = URL_KV (env st)) by (split; reflexivity).
  destruct Hst1 as [Hclicks Hlinks].
  assert (Hdone :
            click_count (LINK_CLICKS_KV (env st1)) slug = click_count clicks slug + 1 /\
            LINK_CLICKS_KV (env st1)
            = <[slug := String_of (click_count clicks slug + 1)]> clicks /\
            (clicks !! slug = None -> LINK_CLICKS_KV (env st1) !! slug = Some "1") /\
            (forall other, other <> slug ->
                           LINK_CLICKS_KV (env st1) !! other = clicks !! other) /\
            URL_KV (env st1) = URL_KV (env st)).
  { rewrite Hclicks, Hlinks. split; [apply click_count_after_put|].
    split; [reflexivity|]. split.
    - intros Hnone. rewrite (click_count_missing _ _ Hnone). apply lookup_insert_eq.
    - split; [|reflexivity]. intros other Hother. now apply lookup_insert_ne. }
  unfold Response_redirect.
  destruct (URL_href _).
  - eexists _, st1. split; [reflexivity | exact Hdone].
  - eexists _, st1. split; [reflexivity | exact Hdone].
Qed.

End Clicks.

(** ** Shorten, then redirect *)

Section RoundTrip.
Context `{Platform}.

(** The paths of slugs that do not begin with [api/] or [links/] and are
    not [links] are routed to the redirect handler. *)
Lemma slug_routes_to_redirect (slug : string) :
  startsWith slug "api/" = false -> slug <> "links" -> startsWith slug "links/" = false ->
  is_info_path ("/" ++ slug) = false /\ is_list_path ("/" ++ slug) = false
  /\ startsWith ("/" ++ slug) "/api/" = false.
Proof.
  unfold startsWith. intros Hapi Hlinks Hlinks'.
  assert (Hpre : forall p, String.prefix (String "/" p) ("/" ++ slug) = String.prefix p slug).
  { intros p. change ("/" ++ slug) with (String "/" slug). cbn [String.prefix].
    now destruct (ascii_dec "/" "/"). }
  assert (Hlong : forall p q, String.prefix p slug = false -> String.prefix (p ++ q) slug = false).
  { intros p q Hp. destruct (String.prefix (p ++ q) slug) eqn:Hpq; [|reflexivity].
    apply prefix_split in Hpq. rewrite Hpq, append_assoc, prefix_app in Hp.
    discriminate. }
  assert (Heq : forall p, String.eqb ("/" ++ slug) (String "/" p) = String.eqb slug p).
  { intros p. reflexivity. }
  assert (Hne : forall p q, String.prefix p slug = false -> String.eqb slug (p ++ q) = false).
  { intros p q Hp. apply String.eqb_neq. intros ->. now rewrite prefix_app in Hp. }
  unfold is_info_path, is_list_path, startsWith.
  change "/api/links/" with (String "/" ("api/" ++ "links/")).
  change "/links/" with (String "/" ("links/" ++ "")).
  change "/api/links" with (String "/" ("api/" ++ "links")).
  change "/links" with (String "/" "links").
  change "/api/" with (String "/" "api/").
  rewrite !Hpre, !Heq, !(Hlong _ _ Hapi), !(Hlong _ _ Hlinks'), !(Hne _ _ Hapi),
    (Hne _ "" Hlinks'), Hapi.
  apply String.eqb_neq in Hlinks. now rewrite Hlinks.
Qed.

(** C2 (amended). A valid authorized shorten request with a slug that the
    Link Store does not hold returns the short URL [origin/slug] and the
    slug. When the slug does not begin with [api/] or [links/] and is not
    [links], and the url is one that the platform's redirect accepts, a
    following GET whose path is [/slug] is answered with a 301 redirect to
    the url, in the form the platform's URL parser serialises it. *)
Theorem shorten_then_redirect (request g : Request) (st : State) (keys : json)
    (u s href : string) :
  method request = "POST" -> pathname request = "/api/shorten" ->
  validateApiKey request (env st) = Some keys ->
  json_body request = BodyObj (Some (JString u)) (Some s) ->
  startsWith u "http" = true ->
  truthy_text (Some s) = true ->
  URL_KV (env st) !! s = None ->
  method g = "GET" -> pathname g = "/" ++ s ->
  startsWith s "api/" = false -> s <> "links" -> startsWith s "links/" = false ->
  JSON_parse (JSON_stringify (mkLink u s (Date_now st)))
  = Some (link_json (mkLink u s (Date_now st))) ->
  URL_href u = Some href ->
  exists st' st'',
    fetch request st
    = (Ok (json_response (JsonShort (origin request ++ "/" ++ s) s) 200), st') /\
    ends_with (origin request ++ "/" ++ s) ("/" ++ s) /\
    URL_KV (env st') !! s = Some (JSON_stringify (mkLink u s (Date_now st))) /\
    fetch g st' = (Ok (mkResponse 301 NoBody (Some href)), st'').
Proof.
  intros Hm Hp Hauth Hb Hu Hs Hfree Hg Hgp Hapi Hlinks Hlinks' Hcodec Hcan.
  assert (Hurl : url_starts_with_http (Some (JString u)) = true) by exact Hu.
  apply url_ok_string in Hurl as (u' & [= <-] & Htr & _).
  eexists _, _. split; [|split; [|split]].
  - rewrite fetch_shorten by assumption.
    unfold handle_shorten. run. rewrite Hauth, Hb. run.
    change (string_of (Some (JString u))) with u. rewrite Htr, Hu.
    cbn [negb orb typeof_string].
    unfold getUniqueSlug, getUniqueSlug_loop, custom_given, kv_get, kv_put.
    rewrite Hs. run. cbn [ns_map]. rewrite Hfree. reflexivity.
  - exists (origin request). reflexivity.
  - cbn [env record with_env set_ns_map URL_KV]. apply lookup_insert_eq.
  - destruct (slug_routes_to_redirect s Hapi Hlinks Hlinks') as (Hinfo & Hlist & Hroute).
    rewrite <- Hgp in Hinfo, Hlist, Hroute.
    rewrite (fetch_get_slug g _ s) by assumption. rewrite Hroute.
    unfold kv_get_json, kv_get. run.
    cbn [env record with_env set_ns_map URL_KV ns_map Date_now].
    rewrite lookup_insert_eq, Hcodec.
    change (truthy (Some (link_json (mkLink u s (Date_now st))))) with true.
    cbn [negb]. rewrite incrementClickCount_spec.
    change (get_prop (link_json (mkLink u s (Date_now st))) "originalUrl")
      with (Some (JString u)).
    unfold Response_redirect. rewrite Hcan. reflexivity.
Qed.

End RoundTrip.

(** The failing input of C1: the secret is the JSON string of one key, and
    the request presents a fragment of it. *)
Lemma validateApiKey_string_secret_witness :
  validateApiKey (H := Reference.platform)
    (Sample.request "POST" "/api/shorten" (Some "Bearer key") BodyReject)
    (env (Sample.state ∅ ∅ Sample.string_keys))
  = Some (JString "key-1").
Proof.
  apply (validateApiKey_string_secret (H := Reference.platform) _ _
           (Reference.quote "key-1") "key" "key-1"); reflexivity.
Defined.

(** The failing input of C4: no Authorization header, and a path whose
    slug is a lone percent sign. *)
Lemma info_malformed_escape_500_witness :
  fetch (H := Reference.platform)
    (Sample.request "GET" "/api/links/%" None BodyReject)
    (Sample.state ∅ ∅ Sample.keys)
  = (Ok (text_response "server error" 500), Sample.state ∅ ∅ Sample.keys).
Proof.
  apply (info_malformed_escape_500 (H := Reference.platform)); reflexivity.
Defined.

(** C7 on a request with the url [ftp://x]. *)
Lemma shorten_invalid_url_400_witness :
  fetch (H := Reference.platform)
    (Sample.request "POST" "/api/shorten" (Some "Bearer key-1")
       (BodyObj (Some (JString "ftp://x")) None))
    (Sample.state ∅ ∅ Sample.keys)
  = (Ok (json_response (JsonError "Invalid URL") 400), Sample.state ∅ ∅ Sample.keys).
Proof.
  exact (proj1 (shorten_invalid_url_400 (H := Reference.platform)
                  (Sample.request "POST" "/api/shorten" (Some "Bearer key-1")
                     (BodyObj (Some (JString "ftp://x")) None))
                  (Sample.state ∅ ∅ Sample.keys)
                  (JArray [JString "key-1"; JString "key-2"]) (Some (JString "ftp://x")) None
                  eq_refl eq_refl eq_refl eq_refl eq_refl)).
Defined.

(** C9 as stated fails on an authorized delete request whose body is not
    JSON: the body supplies no slug and the answer is 500. *)
Lemma delete_missing_slug_counterexample :
  ~ delete_missing_slug_claim (H := Reference.platform)
      (Sample.request "DELETE" "/api/delete" (Some "Bearer key-1") BodyReject)
      (Sample.state ∅ ∅ Sample.keys).
Proof.
  intros Hclaim.
  assert (Hstatus : status_of
            (fetch (H := Reference.platform)
               (Sample.request "DELETE" "/api/delete" (Some "Bearer key-1") BodyReject)
               (Sample.state ∅ ∅ Sample.keys)) = Some 500%nat) by reflexivity.
  rewrite Hclaim in Hstatus; [discriminate | reflexivity | reflexivity | | reflexivity].
  vm_compute. discriminate.
Qed.

(** C9 (amended) on a body without a slug. *)
Lemma delete_missing_slug_400_witness :
  fetch (H := Reference.platform)
    (Sample.request "DELETE" "/api/delete" (Some "Bearer key-1") (BodyObj None None))
    (Sample.state ∅ ∅ Sample.keys)
  = (Ok (json_response (JsonError "missing slug") 400), Sample.state ∅ ∅ Sample.keys).
Proof.
  eapply (delete_missing_slug_400 (H := Reference.platform)); reflexivity.
Defined.

(** C3 as stated fails on a request whose url does not pass the
    validation: the slug [abc123] is taken, and the answer is 400. *)
Lemma shorten_duplicate_custom_slug_counterexample :
  ~ duplicate_slug_claim (H := Reference.platform)
      (Sample.request "POST" "/api/shorten" (Some "Bearer key-1")
         (BodyObj (Some (JString "ftp://x")) (Some "abc123")))
      (Sample.state {[ "abc123" := Sample.link_a ]} ∅ Sample.keys).
Proof.
  intros Hclaim.
  destruct (Hclaim (Some (JString "ftp://x")) "abc123" Sample.link_a) as [Hstatus _];
    try reflexivity.
  - vm_compute. discriminate.
  - vm_compute in Hstatus. discriminate.
Qed.

(** C3 (amended) on the specification's example: [abc123] is taken, and a
    request asks for it again with another url. *)
Lemma shorten_duplicate_custom_slug_witness :
  fetch (H := Reference.platform)
    (Sample.request "POST" "/api/shorten" (Some "Bearer key-1")
       (BodyObj (Some (JString "https://b.com")) (Some "abc123")))
    (Sample.state {[ "abc123" := Sample.link_a ]} ∅ Sample.keys)
  = (Ok (json_response (JsonError "Server Error") 500),
     record (KVGet LinkStore "abc123")
       (Sample.state {[ "abc123" := Sample.link_a ]} ∅ Sample.keys)).
Proof.
  exact (proj1 (shorten_duplicate_custom_slug (H := Reference.platform)
                  (Sample.request "POST" "/api/shorten" (Some "Bearer key-1")
                     (BodyObj (Some (JString "https://b.com")) (Some "abc123")))
                  (Sample.state {[ "abc123" := Sample.link_a ]} ∅ Sample.keys)
                  (JArray [JString "key-1"; JString "key-2"])
                  (Some (JString "https://b.com")) "abc123" Sample.link_a
                  eq_refl eq_refl eq_refl eq_refl eq_refl eq_refl eq_refl)).
Defined.

(** C8 on a store that holds [abc123] with three clicks. *)
Lemma delete_link_witness :
  let request := Sample.request "DELETE" "/api/delete" (Some "Bearer key-1")
                   (BodyObj None (Some "abc123")) in
  let st := Sample.state {[ "abc123" := Sample.link_a ]} {[ "abc123" := "3" ]} Sample.keys in
  exists st',
    fetch (H := Reference.platform) request st
    = (Ok (json_response (JsonMessage "link deleted") 200), st') /\
    URL_KV (env st') = delete "abc123" (URL_KV (env st)) /\
    LINK_CLICKS_KV (env st') = LINK_CLICKS_KV (env st).
Proof.
  intros request st.
  destruct (delete_link (H := Reference.platform) request st
              (JArray [JString "key-1"; JString "key-2"]) None "abc123"
              eq_refl eq_refl eq_refl eq_refl eq_refl) as [_ Hpresent].
  destruct (Hpresent Sample.link_a eq_refl eq_refl) as (st' & Hf & Hl & Hc & _).
  exists st'. auto.
Defined.

(** C6 on a store that already holds the first candidate [abcdef]: the
    second candidate, [ghijkl], is the slug, after two reads. *)
Lemma shorten_without_slug_witness :
  let request := Sample.request "POST" "/api/shorten" (Some "Bearer key-1")
                   (BodyObj (Some (JString "https://b.com")) None) in
  let st := Sample.state {[ "abcdef" := Sample.link_a ]} ∅ Sample.keys in
  is_generated_slug (candidate st 1) = true /\
  fetch (H := Reference.platform) request st
  = (Ok (json_response (JsonShort "https://srt.example/ghijkl" "ghijkl") 200),
     after_store (H := Reference.platform) st "https://b.com" 1).
Proof.
  intros request st.
  assert (Hstore : stored_nonempty (URL_KV (env st))).
  { intros key text Hget. unfold st, Sample.state in Hget. cbn [env URL_KV] in Hget.
    apply lookup_singleton_Some in Hget as [_ <-]. discriminate. }
  destruct (shorten_without_slug (H := Reference.platform) request st
              (JArray [JString "key-1"; JString "key-2"])
              eq_refl eq_refl eq_refl eq_refl Hstore)
    as [Hgen [(k & Hk & Hbefore & Hfree & Hf) | (Hall & _)]].
  - split; [apply Hgen|]. destruct k as [|[|k]].
    + vm_compute in Hfree. discriminate Hfree.
    + exact Hf.
    + assert (Htaken : is_Some (URL_KV (env st) !! candidate st 1)) by (apply Hbefore; lia).
      vm_compute in Htaken. destruct Htaken as [text Htext]. discriminate Htext.
  - assert (Htaken : is_Some (URL_KV (env st) !! candidate st 1)) by (apply Hall; lia).
    vm_compute in Htaken. destruct Htaken as [text Htext]. discriminate Htext.
Defined.

(** C10 on a request with the empty slug and an empty store: the first
    candidate, [abcdef], is the slug. *)
Lemma empty_slug_as_no_slug_witness :
  let request := Sample.request "POST" "/api/shorten" (Some "Bearer key-1")
                   (BodyObj (Some (JString "https://b.com")) (Some "")) in
  let st := Sample.state ∅ ∅ Sample.keys in
  fetch (H := Reference.platform) request st
  = fetch (H := Reference.platform)
      (with_body request (BodyObj (Some (JString "https://b.com")) None)) st
  /\ fetch (H := Reference.platform) request st
     = (Ok (json_response (JsonShort "https://srt.example/abcdef" "abcdef") 200),
        after_store (H := Reference.platform) st "https://b.com" 0).
Proof.
  intros request st.
  destruct (empty_slug_as_no_slug (H := Reference.platform) request st
              (JArray [JString "key-1"; JString "key-2"]) (Some (JString "https://b.com"))
              eq_refl eq_refl eq_refl eq_refl)
    as (Hsame & _ & [(k & Hk & Hbefore & Hfree & Hf) | (Hall & _)]).
  - split; [exact Hsame|]. destruct k as [|k]; [exact Hf|].
    assert (Htaken : collides (URL_KV (env st)) (candidate st 0)) by (apply Hbefore; lia).
    vm_compute in Htaken. discriminate Htaken.
  - assert (Htaken : collides (URL_KV (env st)) (candidate st 0)) by (apply Hall; lia).
    vm_compute in Htaken. discriminate Htaken.
Defined.

(** ** The handlers on sample requests *)

Example shorten_generates_second_candidate :
  fst (fetch (H := Reference.platform)
         (Sample.request "POST" "/api/shorten" (Some "Bearer key-1")
            (BodyObj (Some (JString "https://b.com")) None))
         (Sample.state {[ "abcdef" := Sample.link_a ]} ∅ Sample.keys))
  = Ok (json_response (JsonShort "https://srt.example/ghijkl" "ghijkl") 200).
Proof. vm_compute. reflexivity. Qed.

Example shorten_exhausts_five_candidates :
  fst (fetch (H := Reference.platform)
         (Sample.request "POST" "/api/shorten" (Some "Bearer key-1")
            (BodyObj (Some (JString "https://b.com")) (Some "")))
         (Sample.state
            (list_to_map [("abcdef", "x"); ("ghijkl", "x"); ("mnopqr", "x");
                          ("stuvwx", "x"); ("yzABCD", "x")]) ∅ Sample.keys))
  = Ok (json_response (JsonError "Server Error") 500).
Proof. vm_compute. reflexivity. Qed.

Example shorten_wrong_key_401 :
  fst (fetch (H := Reference.platform)
         (Sample.request "POST" "/api/shorten" (Some "Bearer KEY-1")
            (BodyObj (Some (JString "https://b.com")) None))
         (Sample.state ∅ ∅ Sample.keys))
  = Ok unauthorized.
Proof. vm_compute. reflexivity. Qed.

(** C2 as stated fails for the custom slug [api/x]: the shorten request
    succeeds, and the GET of [/api/x] that follows is under [/api/], which
    the redirect route excludes; it is answered with 404. *)
Lemma shorten_then_redirect_counterexample :
  ~ shorten_then_redirect_claim (H := Reference.platform)
      (Sample.request "POST" "/api/shorten" (Some "Bearer key-1")
         (BodyObj (Some (JString "https://a.com")) (Some "api/x")))
      (Sample.request "GET" "/api/x" None BodyReject)
      (Sample.state ∅ ∅ Sample.keys).
Proof.
  intros Hclaim.
  destruct (Hclaim "https://a.com" "api/x") as (shortUrl & st' & Hf & _ & Hg);
    try reflexivity.
  - vm_compute. discriminate.
  - vm_compute in Hf. injection Hf as _ <-. vm_compute in Hg. discriminate.
Qed.

(** C2 (amended) on the specification's slug [abc123]. *)
Lemma shorten_then_redirect_witness :
  let request := Sample.request "POST" "/api/shorten" (Some "Bearer key-1")
                   (BodyObj (Some (JString "https://a.com")) (Some "abc123")) in
  let g := Sample.request "GET" "/abc123" None BodyReject in
  let st := Sample.state ∅ ∅ Sample.keys in
  exists st' st'',
    fetch (H := Reference.platform) request st
    = (Ok (json_response (JsonShort "https://srt.example/abc123" "abc123") 200), st') /\
    fetch (H := Reference.platform) g st'
    = (Ok (mkResponse 301 NoBody (Some "https://a.com/")), st'').
Proof.
  intros request g st.
  destruct (shorten_then_redirect (H := Reference.platform) request g st
              (JArray [JString "key-1"; JString "key-2"]) "https://a.com" "abc123"
              "https://a.com/")
    as (st' & st'' & Hf & _ & _ & Hg); try reflexivity.
  - discriminate.
  - exists st', st''. split; assumption.
Defined.

(** C5 on the specification's example: the fourth redirect of [abc123]. *)
Lemma redirect_increments_click_count_witness :
  let g := Sample.request "GET" "/abc123" None BodyReject in
  let st := Sample.state {[ "abc123" := Sample.link_a ]} {[ "abc123" := "3" ]} Sample.keys in
  exists resp st',
    fetch (H := Reference.platform) g st = (Ok resp, st') /\
    click_count (LINK_CLICKS_KV (env st')) "abc123" = 4.
Proof.
  intros g st.
  destruct (redirect_increments_click_count (H := Reference.platform) g st "abc123"
              Sample.link_a
              (link_json (mkLink "https://a.com" "abc123" "2023-12-31T00:00:00.000Z")))
    as (resp & st' & Hf & Hcount & _); try reflexivity.
  - unfold safe_integer. vm_compute. split; [discriminate | reflexivity].
  - exists resp, st'. split; [assumption|]. rewrite Hcount. reflexivity.
Defined.

Example three_redirects_report_three_clicks :
  let g := Sample.request "GET" "/abc123" None BodyReject in
  let info := Sample.request "GET" "/api/links/abc123" (Some "Bearer key-1") BodyReject in
  let st0 := Sample.state {[ "abc123" := Sample.link_a ]} ∅ Sample.keys in
  let st1 := snd (fetch (H := Reference.platform) g st0) in
  let st2 := snd (fetch (H := Reference.platform) g st1) in
  let st3 := snd (fetch (H := Reference.platform) g st2) in
  fst (fetch (H := Reference.platform) g st0)
  = Ok (mkResponse 301 NoBody (Some "https://a.com/")) /\
  fst (fetch (H := Reference.platform) info st3)
  = Ok (json_response
          (JsonInfo (mkInfo (Some (JString "abc123")) (Some (JString "https://a.com"))
                            (Some (JString "2023-12-31T00:00:00.000Z")) 3)) 200).
Proof. vm_compute. split; reflexivity. Qed.

(** * Further properties *)

(** ** Computations that only read *)

Lemma read_only_ret {A : Type} (a : A) : read_only (ret a).
Proof. intros st. split; reflexivity. Qed.

Lemma read_only_throw {A : Type} (e : exn) : read_only (throw (A := A) e).
Proof. intros st. split; reflexivity. Qed.

Lemma read_only_bind {A B : Type} (m : M A) (k : A -> M B) :
  read_only m -> (forall a, read_only (k a)) -> read_only (bind m k).
Proof.
  intros Hm Hk st. unfold bind. specialize (Hm st).
  destruct (m st) as [[a|e] st1]; cbn [snd] in *; [|exact Hm].
  destruct (Hk a st1) as [He Hd]. destruct Hm as [He1 Hd1]. split; congruence.
Qed.

Lemma read_only_try_catch {A : Type} (m : M A) (h : exn -> M A) :
  read_only m -> (forall e, read_only (h e)) -> read_only (try_catch m h).
Proof.
  intros Hm Hh st. unfold try_catch. specialize (Hm st).
  destruct (m st) as [[a|e] st1]; cbn [snd] in *; [exact Hm|].
  destruct (Hh e st1) as [He Hd]. destruct Hm as [He1 Hd1]. split; congruence.
Qed.

Lemma read_only_kv_get (ns : namespace) (key : string) : read_only (kv_get ns key).
Proof. intros st. split; reflexivity. Qed.

Lemma read_only_generateSlug : read_only generateSlug.
Proof.
  intros st. destruct (generateSlug_spec st) as (s & -> & _). split; reflexivity.
Qed.

Create HintDb read_only.
#[export] Hint Resolve read_only_ret read_only_throw read_only_kv_get
  read_only_generateSlug : read_only.
#[export] Hint Extern 2 (read_only (bind _ _)) =>
  apply read_only_bind; [|intros ?] : read_only.
#[export] Hint Extern 2 (read_only (try_catch _ _)) =>
  apply read_only_try_catch; [|intros ?] : read_only.
#[export] Hint Extern 3 (read_only (if ?b then _ else _)) => destruct b : read_only.
#[export] Hint Extern 3 (read_only (match ?x with _ => _ end)) => destruct x : read_only.

Section ReadOnly.
Context `{Platform}.

Lemma read_only_kv_get_json (ns : namespace) (key : string) :
  read_only (kv_get_json ns key).
Proof. unfold kv_get_json. auto 6 with read_only. Qed.

Lemma read_only_getClickCount (slug : string) : read_only (getClickCount slug).
Proof. unfold getClickCount. auto 6 with read_only. Qed.

Lemma read_only_getLinkInfo (slug : string) : read_only (getLinkInfo slug).
Proof.
  unfold getLinkInfo.
  apply read_only_bind; [apply read_only_kv_get_json|]. intros stored.
  destruct (negb (truthy (Some stored))); [apply read_only_ret|].
  apply read_only_bind; [apply read_only_getClickCount|]. intros clicks.
  apply read_only_ret.
Qed.

Lemma read_only_collect_infos (slugs : list string) : read_only (collect_infos slugs).
Proof.
  induction slugs as [|slug rest IH]; cbn [collect_infos]; [apply read_only_ret|].
  apply read_only_bind; [apply read_only_getLinkInfo|]. intros info.
  apply read_only_bind; [exact IH|]. intros infos. apply read_only_ret.
Qed.

Lemma read_only_getUniqueSlug_loop (customSlug : option string) (n : nat) (s : string) :
  read_only (getUniqueSlug_loop customSlug n s).
Proof.
  revert s. induction n as [|n IH]; intros s; cbn [getUniqueSlug_loop].
  - apply read_only_throw.
  - apply read_only_bind; [apply read_only_kv_get|]. intros existing.
    destruct (negb (truthy_text existing)); [apply read_only_ret|].
    destruct (custom_given customSlug); [apply read_only_throw|].
    apply read_only_bind; [apply read_only_generateSlug|]. intros s'. apply IH.
Qed.

Lemma read_only_getUniqueSlug (customSlug : option string) (n : nat) :
  read_only (getUniqueSlug customSlug n).
Proof.
  unfold getUniqueSlug. apply read_only_bind.
  - destruct customSlug as [s|]; [|apply read_only_generateSlug].
    destruct (custom_given (Some s)); [apply read_only_ret | apply read_only_generateSlug].
  - intros s. apply read_only_getUniqueSlug_loop.
Qed.

End ReadOnly.

(** ** What one request does to the stores *)

Section Footprint.
Context `{Platform}.

Lemma read_only_get_env : read_only get_env.
Proof. intros st. split; reflexivity. Qed.

Lemma read_only_handle_info (request : Request) : read_only (handle_info request).
Proof.
  unfold handle_info. destruct (decodeURIComponent _) as [slug|]; [|apply read_only_throw].
  apply read_only_bind; [apply read_only_get_env|]. intros e.
  destruct (validateApiKey request e); [|apply read_only_ret].
  apply read_only_try_catch; [|intros; apply read_only_ret].
  apply read_only_bind; [apply read_only_getLinkInfo|].
  intros [i|]; apply read_only_ret.
Qed.

Lemma read_only_handle_list (request : Request) : read_only (handle_list request).
Proof.
  unfold handle_list.
  apply read_only_bind; [apply read_only_get_env|]. intros e.
  destruct (validateApiKey request e); [|apply read_only_ret].
  apply read_only_try_catch; [|intros; apply read_only_ret].
  destruct (URL_KV_list e); [|apply read_only_ret].
  apply read_only_bind; [intros st; split; reflexivity|]. intros keys.
  apply read_only_bind; [apply read_only_collect_infos|]. intros infos.
  apply read_only_ret.
Qed.

(** The handler always answers: the outer [catch] turns every exception
    into a response. *)
Lemma fetch_answers (request : Request) (st : State) :
  exists resp, fst (fetch request st) = Ok resp.
Proof.
  unfold fetch, try_catch.
  match goal with |- context [let (_, _) := ?m st in _] => destruct (m st) as [[resp|e] st1] end;
    eexists; reflexivity.
Qed.

Lemma fetch_get (request : Request) (st : State) :
  method request = "GET" ->
  fetch request st
  = try_catch
      (if String.eqb (pathname request) "/" then ret (json_response JsonHealth 200)
       else if is_info_path (pathname request) then handle_info request
       else if is_list_path (pathname request) then handle_list request
       else if negb (startsWith (pathname request) "/api/") then handle_redirect request
       else ret (text_response "not found" 404))
      (fun _ => ret (text_response "server error" 500)) st.
Proof. unfold fetch. intros ->. reflexivity. Qed.

(** A slug that [getUniqueSlug] returns was read as free. *)
Lemma getUniqueSlug_loop_free (customSlug : option string) (n : nat) :
  forall (s0 : string) (st : State) (s : string) (st1 : State),
    getUniqueSlug_loop customSlug n s0 st = (Ok s, st1) ->
    truthy_text (URL_KV (env st) !! s) = false.
Proof.
  induction n as [|n IH]; intros s0 st s st1; cbn [getUniqueSlug_loop]; [discriminate|].
  unfold kv_get. run. cbn [ns_map].
  destruct (truthy_text (URL_KV (env st) !! s0)) eqn:Hget; cbn [negb].
  - destruct (custom_given customSlug); [discriminate|].
    destruct (generateSlug_spec (record (KVGet LinkStore s0) st)) as (s2 & -> & _).
    intros Hloop. apply IH in Hloop. exact Hloop.
  - intros [= <- _]. exact Hget.
Qed.

Lemma getUniqueSlug_free (customSlug : option string) (n : nat) (st : State)
    (s : string) (st1 : State) :
  getUniqueSlug customSlug n st = (Ok s, st1) ->
  truthy_text (URL_KV (env st) !! s) = false.
Proof.
  unfold getUniqueSlug, bind.
  destruct customSlug as [c|].
  - destruct (custom_given (Some c)).
    + cbn [ret]. apply getUniqueSlug_loop_free.
    + destruct (generateSlug_spec st) as (s0 & -> & _).
      intros Hloop. apply getUniqueSlug_loop_free in Hloop. exact Hloop.
  - destruct (generateSlug_spec st) as (s0 & -> & _).
    intros Hloop. apply getUniqueSlug_loop_free in Hloop. exact Hloop.
Qed.

Lemma footprint_shorten (request : Request) (st : State) :
  method request = "POST" -> pathname request = "/api/shorten" ->
  exists resp st', fetch request st = (Ok resp, st') /\ footprint request st resp (env st').
Proof.
  intros Hm Hp. rewrite fetch_shorten by assumption.
  unfold handle_shorten. run.
  destruct (validateApiKey request (env st)) as [keys|];
    [|eexists _, _; split; [reflexivity | left; reflexivity]].
  destruct (json_body request) as [| |url slug] eqn:Hb;
    try (eexists _, _; split; [reflexivity | left; reflexivity]).
  run. destruct (url_starts_with_http url) eqn:Hurl.
  - apply url_ok_string in Hurl as (u & -> & Htr & Hpre).
    change (string_of (Some (JString u))) with u. rewrite Htr, Hpre.
    cbn [negb orb typeof_string].
    destruct (read_only_getUniqueSlug slug 5 st) as [Henv Hnow].
    destruct (getUniqueSlug slug 5 st) as [[s|e] st1] eqn:Hslug; cbn [snd] in *.
    + apply getUniqueSlug_free in Hslug.
      unfold kv_put. eexists _, _. split; [reflexivity|].
      right. left. split; [assumption|]. split; [assumption|].
      exists s, u, slug. cbn [env record with_env ns_map]. rewrite Henv, Hnow. auto.
    + eexists _, _. split; [reflexivity|]. left. exact Henv.
  - unfold url_starts_with_http in Hurl.
    destruct (truthy url); [|eexists _, _; split; [reflexivity | left; reflexivity]].
    destruct (typeof_string url); [|eexists _, _; split; [reflexivity | left; reflexivity]].
    simpl in Hurl. rewrite Hurl.
    eexists _, _; split; [reflexivity | left; reflexivity].
Qed.

Lemma footprint_delete (request : Request) (st : State) :
  method request = "DELETE" -> pathname request = "/api/delete" ->
  exists resp st', fetch request st = (Ok resp, st') /\ footprint request st resp (env st').
Proof.
  intros Hm Hp. rewrite fetch_delete by assumption.
  unfold handle_delete. run.
  destruct (validateApiKey request (env st)) as [keys|];
    [|eexists _, _; split; [reflexivity | left; reflexivity]].
  destruct (json_body request) as [| |url slug] eqn:Hb;
    try (eexists _, _; split; [reflexivity | left; reflexivity]).
  run. destruct slug as [s|];
    [|eexists _, _; split; [reflexivity | left; reflexivity]].
  destruct (truthy_text (Some s)); cbn [negb];
    [|eexists _, _; split; [reflexivity | left; reflexivity]].
  unfold kv_get, kv_delete. cbn [ns_map default from_option id].
  destruct (truthy_text (URL_KV (env st) !! s)) eqn:Hget; cbn [negb].
  - eexists _, _. split; [reflexivity|].
    right. right. left. split; [assumption|]. split; [assumption|].
    exists s, url. auto.
  - eexists _, _; split; [reflexivity | left; reflexivity].
Qed.

Lemma footprint_redirect (request : Request) (st : State) :
  method request = "GET" ->
  exists r st', handle_redirect request st = (Ok r, st') /\
                footprint request st r (env st').
Proof.
  intros Hm. unfold handle_redirect. fold (redirect_slug (pathname request)).
  set (slug := redirect_slug (pathname request)).
  destruct (truthy_text (Some slug)); cbn [negb];
    [|eexists _, _; split; [reflexivity | left; reflexivity]].
  unfold kv_get_json, kv_get. run. cbn [ns_map].
  destruct (URL_KV (env st) !! slug) as [text|] eqn:Hget;
    [|eexists _, _; split; [reflexivity | left; reflexivity]].
  destruct (JSON_parse text) as [stored|];
    [|eexists _, _; split; [reflexivity | left; reflexivity]].
  destruct (truthy (Some stored)); cbn [negb];
    [|eexists _, _; split; [reflexivity | left; reflexivity]].
  assert (Hinc : (if ctx_waitUntil request
                  then incrementClickCount slug else incrementClickCount slug)
                 = incrementClickCount slug) by now destruct (ctx_waitUntil request).
  rewrite Hinc, incrementClickCount_spec.
  unfold Response_redirect.
  destruct (URL_href _);
    (eexists _, _; split; [reflexivity|];
     right; right; right; split; [assumption|]; exists text; split; [exact Hget | reflexivity]).
Qed.

(** Every request is answered, and its effect on the bindings is one of
    the four of [footprint]. *)
Lemma fetch_footprint (request : Request) (st : State) :
  exists resp st', fetch request st = (Ok resp, st') /\ footprint request st resp (env st').
Proof.
  destruct (String.eqb_spec (method request) "GET") as [Hget|Hget].
  - rewrite fetch_get by assumption.
    destruct (String.eqb (pathname request) "/");
      [eexists _, _; split; [reflexivity | left; reflexivity]|].
    destruct (is_info_path (pathname request)).
    { destruct (read_only_handle_info request st) as [Henv _]. unfold try_catch.
      destruct (handle_info request st) as [[r|e] st1]; cbn [snd] in Henv;
        eexists _, _; (split; [reflexivity | left; exact Henv]). }
    destruct (is_list_path (pathname request)).
    { destruct (read_only_handle_list request st) as [Henv _]. unfold try_catch.
      destruct (handle_list request st) as [[r|e] st1]; cbn [snd] in Henv;
        eexists _, _; (split; [reflexivity | left; exact Henv]). }
    destruct (negb (startsWith (pathname request) "/api/"));
      [|eexists _, _; split; [reflexivity | left; reflexivity]].
    destruct (footprint_redirect request st Hget) as (r & st' & Hr & Hfp).
    exists r, st'. unfold try_catch. rewrite Hr. auto.
  - destruct (String.eqb_spec (method request) "POST") as [Hpost|Hpost].
    + destruct (String.eqb_spec (pathname request) "/api/shorten") as [Hp|Hp].
      * now apply footprint_shorten.
      * exists (text_response "not found" 404), st. split; [|left; reflexivity].
        unfold fetch. rewrite Hpost. apply String.eqb_neq in Hp. now rewrite Hp.
    + destruct (String.eqb_spec (method request) "DELETE") as [Hdel|Hdel].
      * destruct (String.eqb_spec (pathname request) "/api/delete") as [Hp|Hp].
        -- now apply footprint_delete.
        -- exists (text_response "not found" 404), st. split; [|left; reflexivity].
           unfold fetch. rewrite Hdel. apply String.eqb_neq in Hp. now rewrite Hp.
      * exists (text_response "not found" 404), st. split; [|left; reflexivity].
        unfold fetch. apply String.eqb_neq in Hget, Hpost, Hdel.
        now rewrite Hget, Hpost, Hdel.
Qed.

End Footprint.

(** ** Invariants of the stores *)

Section StoreInvariants.
Context `{Platform}.

(** X1. Which store a request can change is decided by its method: a GET never
    changes the Link Store, any other method never changes the Click Store
    (so deleting a link keeps its counter), and no request changes the
    secret binding or the list capability. *)
Theorem stores_change_by_method (request : Request) (st : State) :
  let e := env st in
  let e' := env (snd (fetch request st)) in
  (method request = "GET" -> URL_KV e' = URL_KV e) /\
  (method request <> "GET" -> LINK_CLICKS_KV e' = LINK_CLICKS_KV e) /\
  API_KEYS e' = API_KEYS e /\ URL_KV_list e' = URL_KV_list e.
Proof.
  cbv zeta.
  destruct (fetch_footprint request st) as (resp & st' & -> & Hfp). cbn [snd].
  destruct Hfp as [-> | [(Hm & _ & s & u & slug & _ & _ & _ & _ & ->)
                        | [(Hm & _ & s & url & _ & _ & _ & ->) | (Hm & text & _ & ->)]]];
    cbn [set_ns_map URL_KV LINK_CLICKS_KV API_KEYS URL_KV_list];
    repeat split; auto; intros Hg; congruence.
Qed.

(** X2. A record of the Link Store survives every request unchanged, except
    the delete request for its own slug, which removes it: shortening never
    overwrites. *)
Theorem record_kept_until_deleted (request : Request) (st : State) (key text : string) :
  URL_KV (env st) !! key = Some text -> truthy_text (Some text) = true ->
  URL_KV (env (snd (fetch request st))) !! key = Some text
  \/ (method request = "DELETE" /\ pathname request = "/api/delete" /\
      (exists url, json_body request = BodyObj url (Some key)) /\
      URL_KV (env (snd (fetch request st))) !! key = None).
Proof.
  intros Hget Htext.
  destruct (fetch_footprint request st) as (resp & st' & -> & Hfp). cbn [snd].
  destruct Hfp as [-> | [(_ & _ & s & u & slug & _ & _ & Hfree & _ & ->)
                        | [(Hm & Hp & s & url & Hb & _ & _ & ->) | (_ & t & _ & ->)]]];
    cbn [set_ns_map URL_KV].
  - now left.
  - left. rewrite lookup_insert_ne; [assumption|].
    intros ->. rewrite Hget, Htext in Hfree. discriminate.
  - destruct (decide (s = key)) as [->|Hne].
    + right. split; [assumption|]. split; [assumption|].
      split; [eauto | apply lookup_delete_eq].
    + left. now rewrite lookup_delete_ne.
  - now left.
Qed.

Lemma click_count_wf (clicks : gmap string string) (slug : string) :
  clicks_wf clicks -> 0 <= click_count clicks slug.
Proof.
  intros Hwf. unfold click_count.
  destruct (clicks !! slug) as [text|] eqn:Hget.
  - destruct (Hwf slug text Hget) as (n & Hn & ->).
    rewrite parseInt_String_of. change (finite_or_zero (Some n)) with n. lia.
  - change (finite_or_zero (parseInt "0")) with 0. lia.
Qed.

(** X4. The Click Store stays well formed: when every counter is the decimal
    text of a positive integer, the same holds after any request. *)
Theorem clicks_wf_preserved (request : Request) (st : State) :
  clicks_wf (LINK_CLICKS_KV (env st)) ->
  safe_integer (click_count (LINK_CLICKS_KV (env st)) (redirect_slug (pathname request))) ->
  clicks_wf (LINK_CLICKS_KV (env (snd (fetch request st)))).
Proof.
  intros Hwf _.
  destruct (fetch_footprint request st) as (resp & st' & -> & Hfp). cbn [snd].
  destruct Hfp as [-> | [(_ & _ & s & u & slug & _ & _ & _ & _ & ->)
                        | [(_ & _ & s & url & _ & _ & _ & ->) | (_ & t & _ & ->)]]];
    cbn [set_ns_map LINK_CLICKS_KV]; try assumption.
  intros key text Hget.
  destruct (decide (redirect_slug (pathname request) = key)) as [Heq|Hne].
  - rewrite Heq in Hget. rewrite lookup_insert_eq in Hget. injection Hget as <-.
    eexists. split; [|reflexivity].
    pose proof (click_count_wf _ key Hwf). lia.
  - rewrite lookup_insert_ne in Hget by assumption. exact (Hwf key text Hget).
Qed.

(** X5. No request lowers a click count, whatever the counter texts are. *)
Theorem click_count_never_decreases (request : Request) (st : State) (slug : string) :
  safe_integer (click_count (LINK_CLICKS_KV (env st)) slug) ->
  click_count (LINK_CLICKS_KV (env st)) slug
  <= click_count (LINK_CLICKS_KV (env (snd (fetch request st)))) slug.
Proof.
  intros _.
  destruct (fetch_footprint request st) as (resp & st' & -> & Hfp). cbn [snd].
  destruct Hfp as [-> | [(_ & _ & s & u & sl & _ & _ & _ & _ & ->)
                        | [(_ & _ & s & url & _ & _ & _ & ->) | (_ & t & _ & ->)]]];
    cbn [set_ns_map LINK_CLICKS_KV]; try lia.
  destruct (decide (redirect_slug (pathname request) = slug)) as [Heq|Hne].
  - rewrite Heq, click_count_after_put. lia.
  - unfold click_count at 2. rewrite lookup_insert_ne by assumption.
    fold (click_count (LINK_CLICKS_KV (env st)) slug). lia.
Qed.

End StoreInvariants.

(** ** Routing *)

Section Routing.
Context `{Platform}.

Lemma length_append (a b : string) :
  String.length (a ++ b) = (String.length a + String.length b)%nat.
Proof.
  induction a as [|c a IH]; [reflexivity|].
  change (S (String.length (a ++ b)) = S (String.length a + String.length b)).
  now rewrite IH.
Qed.

(** X6. A request that no route matches (a method other than GET on a path
    that is not its endpoint, or a GET under [/api/] that is not a links
    route) is answered with 404; the key is not checked and nothing is read
    or written. *)
Theorem unrouted_404 (request : Request) (st : State) :
  routed request = false ->
  fetch request st = (Ok (text_response "not found" 404), st).
Proof.
  unfold routed. intros Hr.
  repeat (apply orb_false_iff in Hr as [Hr ?]).
  unfold fetch.
  repeat match goal with Hc : _ = false |- _ => rewrite Hc; clear Hc end.
  reflexivity.
Qed.

(** X7. The routes without a key (health, redirect, the fallthrough) ignore the
    Authorization header and the body. *)
Theorem public_routes_ignore_credentials (request : Request) (st : State)
    (auth : option string) (b : parsed_body) :
  method request = "GET" ->
  is_info_path (pathname request) = false -> is_list_path (pathname request) = false ->
  fetch (with_credentials request auth b) st = fetch request st.
Proof.
  intros Hm Hinfo Hlist. rewrite !fetch_get by assumption.
  cbn [pathname with_credentials]. rewrite Hinfo, Hlist. reflexivity.
Qed.

(** The handler of the single-link routes, once the path is split into its
    base and the encoded slug. *)
Lemma fetch_info_path (request : Request) (st : State) (base p : string) :
  method request = "GET" ->
  base = "/api/links/" \/ base = "/links/" ->
  p <> "" -> pathname request = base ++ p ->
  fetch request st
  = try_catch
      (match decodeURIComponent p with
       | None => throw URIError
       | Some slug =>
           let! e := get_env in
           match validateApiKey request e with
           | None => ret unauthorized
           | Some _ =>
               try_catch
                 (let! info := getLinkInfo slug in
                  match info with
                  | None => ret (json_response (JsonError "slug not found") 404)
                  | Some i => ret (json_response (JsonInfo i) 200)
                  end)
                 (fun _ => ret (json_response (JsonError "server error") 500))
           end
       end)
      (fun _ => ret (text_response "server error" 500)) st.
Proof.
  intros Hm Hbase Hp Hpath. rewrite fetch_get by assumption.
  assert (Hlen : Nat.ltb (String.length base) (String.length (pathname request)) = true).
  { rewrite Hpath, length_append. apply Nat.ltb_lt. destruct p; [congruence|]. cbn. lia. }
  assert (Hinfo : is_info_path (pathname request) = true
                  /\ String.eqb (pathname request) "/" = false
                  /\ str_from (String.length (if startsWith (pathname request) "/api/links/"
                                               then "/api/links/" else "/links/"))
                              (pathname request) = p).
  { unfold is_info_path, startsWith. destruct Hbase as [-> | ->]; rewrite Hlen, Hpath.
    - rewrite (prefix_app "/api/links/" p). cbn [andb orb].
      split; [reflexivity|]. split; [reflexivity|]. apply (str_from_app "/api/links/").
    - rewrite (prefix_app "/links/" p).
      change (String.prefix "/api/links/" ("/links/" ++ p)) with false. cbn [andb orb].
      split; [reflexivity|]. split; [reflexivity|]. apply (str_from_app "/links/"). }
  destruct Hinfo as (-> & -> & Hslug). unfold handle_info. now rewrite Hslug.
Qed.

(** X8. The alias routes: [/links/{slug}] is handled exactly as
    [/api/links/{slug}], and the four list paths are handled alike. *)
Theorem links_aliases (request : Request) (st : State) (p path : string) :
  method request = "GET" ->
  (p <> "" ->
   fetch (with_pathname request ("/links/" ++ p)) st
   = fetch (with_pathname request ("/api/links/" ++ p)) st) /\
  (is_list_path path = true ->
   fetch (with_pathname request path) st = fetch (with_pathname request "/api/links") st).
Proof.
  intros Hm. split.
  - intros Hp.
    rewrite (fetch_info_path (with_pathname request ("/links/" ++ p)) st "/links/" p);
      auto.
    rewrite (fetch_info_path (with_pathname request ("/api/links/" ++ p)) st "/api/links/" p);
      auto.
  - intros Hlist. unfold is_list_path in Hlist.
    rewrite !fetch_get by assumption. cbn [pathname with_pathname].
    repeat (apply orb_true_iff in Hlist as [Hlist | Hlist]);
      apply String.eqb_eq in Hlist; subst path; reflexivity.
Qed.

(** X9. When the KV binding has no [list] function, an authorized list request
    is answered with 501 and no KV call is made. *)
Theorem list_unsupported_501 (request : Request) (st : State) (keys : json) :
  method request = "GET" -> is_list_path (pathname request) = true ->
  validateApiKey request (env st) = Some keys ->
  URL_KV_list (env st) = false ->
  fetch request st
  = (Ok (json_response (JsonError "KV list not supported in this environment") 501), st).
Proof.
  intros Hm Hlist Hauth Hno. rewrite fetch_get by assumption.
  assert (Hroot : String.eqb (pathname request) "/" = false).
  { destruct (String.eqb_spec (pathname request) "/") as [Hp|]; [|reflexivity].
    rewrite Hp in Hlist. discriminate. }
  assert (Hinfo : is_info_path (pathname request) = false).
  { unfold is_list_path in Hlist.
    repeat (apply orb_true_iff in Hlist as [Hlist | Hlist]);
      apply String.eqb_eq in Hlist; rewrite Hlist; reflexivity. }
  rewrite Hroot, Hinfo, Hlist. unfold handle_list. run. now rewrite Hauth, Hno.
Qed.

End Routing.

(** ** Authorization, beyond the claims *)

Section AuthorizationMore.
Context `{Platform}.

(** X10. With a secret that parses to a JSON array, a request is authorized
    exactly when its header is [Bearer ] followed by a text that is one of
    the array's string elements (compared as whole strings); the value
    returned is then the array. *)
Theorem validateApiKey_array_iff (request : Request) (e : Env) (secret : string)
    (items : list json) :
  resolve_secret (API_KEYS e) = Some (Some secret) -> secret <> "" ->
  JSON_parse secret = Some (JArray items) ->
  (validateApiKey request e = Some (JArray items)
   <-> exists token, bearer request token /\ In (JString token) items) /\
  (validateApiKey request e = None
   <-> ~ exists token, bearer request token /\ In (JString token) items).
Proof.
  intros Hres Hne Hparse.
  assert (Hiff : validateApiKey request e = Some (JArray items)
                 <-> exists token, bearer request token /\ In (JString token) items).
  { split.
    - intros Hok. apply validateApiKey_Some in Hok
        as (token & secret' & Hb & Hres' & _ & _ & Hinc).
      exists token. split; [assumption|]. apply includes_array_In.
      cbn [includes] in Hinc. now injection Hinc.
    - intros (token & Hb & Hin).
      rewrite (validateApiKey_array request e secret token items) by assumption.
      apply includes_array_In in Hin. now rewrite Hin. }
  split; [exact Hiff|].
  destruct (validateApiKey request e) as [keys|] eqn:Hv.
  - apply validateApiKey_Some in Hv as Hv';
      destruct Hv' as (token & secret' & Hb & Hres' & _ & Hparse' & Hinc).
    assert (keys = JArray items) as -> by congruence.
    split; [discriminate|]. intros Hno. exfalso. apply Hno. now apply Hiff.
  - split; [|reflexivity]. intros _ Hex. apply Hiff in Hex. discriminate.
Qed.

(** X11. A secret binding that gives no usable key list rejects every request,
    whatever its Authorization header. *)
Theorem validateApiKey_fails_closed (request : Request) (e : Env) :
  misconfigured e -> validateApiKey request e = None.
Proof.
  unfold misconfigured. intros Hmis.
  destruct (validateApiKey request e) as [keys|] eqn:Hv; [|reflexivity].
  apply validateApiKey_Some in Hv as (token & secret & _ & Hres & Hne & Hparse & Hinc).
  rewrite Hres in Hmis. destruct Hmis as [Hempty | Hshape]; [contradiction|].
  rewrite Hparse in Hshape. destruct keys; try contradiction; discriminate.
Qed.

End AuthorizationMore.

(** ** Slug resolution with a custom slug *)

(** X13. With a non-empty custom slug, [getUniqueSlug] reads the Link Store
    once, draws nothing, and never retries, however many retries are
    allowed: it returns the slug when the store reads it as free, and
    throws otherwise. With no retry allowed it throws the exhaustion error
    without a read, also for a free custom slug. *)
Theorem getUniqueSlug_custom (s : string) (n : nat) (st : State) :
  truthy_text (Some s) = true ->
  getUniqueSlug (Some s) (S n) st
  = (if truthy_text (URL_KV (env st) !! s)
     then Throw (Error "Custom slug already exists") else Ok s,
     record (KVGet LinkStore s) st)
  /\ getUniqueSlug (Some s) 0 st = (Throw exhausted, st).
Proof.
  intros Hs. unfold getUniqueSlug, custom_given. rewrite Hs.
  cbn [getUniqueSlug_loop]. unfold kv_get, custom_given. rewrite Hs. run. cbn [ns_map].
  split; [|reflexivity]. now destruct (truthy_text (URL_KV (env st) !! s)).
Qed.

(** ** Requests in sequence *)

Section Sequences.
Context `{Platform}.

(** A valid shorten request with a custom slug that the store reads as
    free: the response and the bindings afterwards. *)
Lemma shorten_custom_fresh (request : Request) (st : State) (keys : json) (u s : string) :
  method request = "POST" -> pathname request = "/api/shorten" ->
  validateApiKey request (env st) = Some keys ->
  json_body request = BodyObj (Some (JString u)) (Some s) ->
  startsWith u "http" = true -> truthy_text (Some s) = true ->
  truthy_text (URL_KV (env st) !! s) = false ->
  exists st',
    fetch request st
    = (Ok (json_response (JsonShort (origin request ++ "/" ++ s) s) 200), st') /\
    env st' = set_ns_map LinkStore
                (<[s := JSON_stringify (mkLink u s (Date_now st))]> (URL_KV (env st)))
                (env st) /\
    Date_now st' = Date_now st.
Proof.
  intros Hm Hp Hauth Hb Hu Hs Hfree.
  assert (Hurl : url_starts_with_http (Some (JString u)) = true) by exact Hu.
  apply url_ok_string in Hurl as (u' & [= <-] & Htr & _).
  rewrite fetch_shorten by assumption.
  unfold handle_shorten. run. rewrite Hauth, Hb. run.
  change (string_of (Some (JString u))) with u. rewrite Htr, Hu.
  cbn [negb orb typeof_string].
  unfold getUniqueSlug, getUniqueSlug_loop, custom_given, kv_get, kv_put.
  rewrite Hs. run. cbn [ns_map]. rewrite Hfree. cbn [negb].
  eexists. split; [reflexivity|]. split; reflexivity.
Qed.

(** An authorized delete request for a slug: the response and the
    bindings afterwards. *)
Lemma delete_slug (request : Request) (st : State) (keys : json) (url : jsval)
    (s : string) :
  method request = "DELETE" -> pathname request = "/api/delete" ->
  validateApiKey request (env st) = Some keys ->
  json_body request = BodyObj url (Some s) -> truthy_text (Some s) = true ->
  exists st',
    fetch request st
    = (Ok (if truthy_text (URL_KV (env st) !! s)
           then json_response (JsonMessage "link deleted") 200
           else json_response (JsonError "slug not found") 404), st') /\
    env st' = (if truthy_text (URL_KV (env st) !! s)
               then set_ns_map LinkStore (delete s (URL_KV (env st))) (env st)
               else env st) /\
    Date_now st' = Date_now st.
Proof.
  intros Hm Hp Hauth Hb Hs. rewrite fetch_delete by assumption.
  unfold handle_delete. run. rewrite Hauth, Hb. run. rewrite Hs. cbn [negb].
  unfold kv_get, kv_delete. cbn [ns_map default from_option id].
  destruct (truthy_text (URL_KV (env st) !! s)); cbn [negb];
    eexists; (split; [reflexivity|]); split; reflexivity.
Qed.

(** A GET that the redirect route handles, for a slug whose text parses to
    a truthy value: the counter is raised, and the response is the redirect,
    or 500 when the URL parser rejects the stored url. *)
Lemma redirect_stored (g : Request) (st : State) (s text : string) (v : json) :
  method g = "GET" -> pathname g = "/" ++ s -> truthy_text (Some s) = true ->
  is_info_path (pathname g) = false -> is_list_path (pathname g) = false ->
  startsWith (pathname g) "/api/" = false ->
  URL_KV (env st) !! s = Some text -> JSON_parse text = Some v ->
  truthy (Some v) = true ->
  exists st',
    fetch g st
    = (Ok (match URL_href (match get_prop v "originalUrl" with
                           | Some (JString u) => u
                           | other => ToString_other other
                           end) with
           | Some href => mkResponse 301 NoBody (Some href)
           | None => text_response "server error" 500
           end), st') /\
    env st' = set_ns_map ClickStore
                (<[s := String_of (click_count (LINK_CLICKS_KV (env st)) s + 1)]>
                   (LINK_CLICKS_KV (env st))) (env st) /\
    kv_log st' = (kv_log st ++ [KVGet LinkStore s; KVGet ClickStore s;
                                KVPut ClickStore s
                                  (String_of (click_count (LINK_CLICKS_KV (env st)) s + 1))])%list.
Proof.
  intros Hm Hp Hs Hinfo Hlist Hapi Hget Hparse Htruthy.
  rewrite (fetch_get_slug g st s) by assumption. rewrite Hapi.
  unfold kv_get_json, kv_get. run. cbn [ns_map]. rewrite Hget, Hparse, Htruthy.
  cbn [negb]. rewrite incrementClickCount_spec. unfold Response_redirect.
  cbn [env record with_env LINK_CLICKS_KV].
  destruct (get_prop v "originalUrl") as [[]|];
    destruct (URL_href _); (eexists; split; [reflexivity|]; split; [reflexivity|]);
    cbn [kv_log record with_env]; now rewrite <- !app_assoc.
Qed.

(** [getLinkInfo] on a key whose text, if any, is JSON. *)
Lemma getLinkInfo_spec (key : string) (st : State) :
  (forall text, URL_KV (env st) !! key = Some text -> JSON_parse text <> None) ->
  exists st', getLinkInfo key st = (Ok (stored_info (env st) key), st') /\ env st' = env st.
Proof.
  intros Hjson. unfold getLinkInfo, stored_info, kv_get_json, kv_get, getClickCount.
  run. cbn [ns_map].
  destruct (URL_KV (env st) !! key) as [text|] eqn:Hget;
    [|eexists; split; reflexivity].
  specialize (Hjson text eq_refl).
  destruct (JSON_parse text) as [v|]; [|congruence].
  destruct (truthy (Some v)); cbn [negb]; eexists; split; reflexivity.
Qed.

(** The single-link routes, for an authorized request whose path slug
    decodes to [s]. *)
Lemma link_info_lookup (request : Request) (st : State) (keys : json)
    (base p s : string) :
  method request = "GET" -> base = "/api/links/" \/ base = "/links/" ->
  p <> "" -> pathname request = base ++ p -> decodeURIComponent p = Some s ->
  validateApiKey request (env st) = Some keys ->
  exists st',
    fetch request st
    = (Ok (match URL_KV (env st) !! s with
           | None => json_response (JsonError "slug not found") 404
           | Some text =>
               match JSON_parse text with
               | None => json_response (JsonError "server error") 500
               | Some v =>
                   if truthy (Some v)
                   then json_response
                          (JsonInfo (mkInfo (get_prop v "slug") (get_prop v "originalUrl")
                                            (get_prop v "created")
                                            (click_count (LINK_CLICKS_KV (env st)) s))) 200
                   else json_response (JsonError "slug not found") 404
               end
           end), st').
Proof.
  intros Hm Hbase Hp Hpath Hdec Hauth.
  rewrite (fetch_info_path request st base p) by assumption.
  rewrite Hdec. run. rewrite Hauth.
  unfold getLinkInfo, kv_get_json, kv_get, getClickCount. run. cbn [ns_map].
  destruct (URL_KV (env st) !! s) as [text|]; [|eexists; reflexivity].
  destruct (JSON_parse text) as [v|]; [|eexists; reflexivity].
  destruct (truthy (Some v)); cbn [negb]; eexists; reflexivity.
Qed.

(** A text that is not JSON makes [getLinkInfo] throw. *)
Lemma getLinkInfo_corrupt (key text : string) (st : State) :
  URL_KV (env st) !! key = Some text -> JSON_parse text = None ->
  exists e st', getLinkInfo key st = (Throw e, st').
Proof.
  intros Hget Hparse. unfold getLinkInfo, kv_get_json, kv_get. run. cbn [ns_map].
  rewrite Hget, Hparse. eexists _, _. reflexivity.
Qed.

End Sequences.

Section SequencesProperties.
Context `{Platform}.

Lemma validateApiKey_same_secret (request : Request) (e e' : Env) :
  API_KEYS e' = API_KEYS e -> validateApiKey request e' = validateApiKey request e.
Proof. unfold validateApiKey. now intros ->. Qed.

(** X15. A GET for a slug that the Link Store does not hold is answered with 404
    after a single read of the Link Store: the Click Store is not touched,
    so no counter is created for an unknown slug. *)
Theorem redirect_unknown_slug (g : Request) (st : State) (s : string) :
  method g = "GET" -> pathname g = "/" ++ s -> truthy_text (Some s) = true ->
  is_info_path (pathname g) = false -> is_list_path (pathname g) = false ->
  URL_KV (env st) !! s = None ->
  fetch g st
  = (Ok (text_response "not found" 404),
     if startsWith (pathname g) "/api/" then st else record (KVGet LinkStore s) st).
Proof.
  intros Hm Hp Hs Hinfo Hlist Hnone.
  rewrite (fetch_get_slug g st s) by assumption.
  destruct (startsWith (pathname g) "/api/"); [reflexivity|].
  unfold kv_get_json, kv_get. run. cbn [ns_map]. now rewrite Hnone.
Qed.

(** X16. The response of the single-link routes for an authorized request whose
    path slug decodes to [s]: 404 when the store has no text for [s] or a
    text that parses to a falsy value, 500 when the text is not JSON, and
    otherwise 200 with the fields of the parsed record and the click count,
    0 when the counter is missing. Neither store changes. The count of [s]
    is taken in the range where the doubles of the worker are exact. *)
Theorem link_info_response (request : Request) (st : State) (keys : json)
    (base p s : string) :
  method request = "GET" -> base = "/api/links/" \/ base = "/links/" ->
  p <> "" -> pathname request = base ++ p -> decodeURIComponent p = Some s ->
  validateApiKey request (env st) = Some keys ->
  safe_integer (click_count (LINK_CLICKS_KV (env st)) s) ->
  exists st',
    fetch request st
    = (Ok (match URL_KV (env st) !! s with
           | None => json_response (JsonError "slug not found") 404
           | Some text =>
               match JSON_parse text with
               | None => json_response (JsonError "server error") 500
               | Some v =>
                   if truthy (Some v)
                   then json_response
                          (JsonInfo (mkInfo (get_prop v "slug") (get_prop v "originalUrl")
                                            (get_prop v "created")
                                            (click_count (LINK_CLICKS_KV (env st)) s))) 200
                   else json_response (JsonError "slug not found") 404
               end
           end), st') /\
    env st' = env st.
Proof.
  intros Hm Hbase Hp Hpath Hdec Hauth _.
  rewrite (fetch_info_path request st base p) by assumption.
  rewrite Hdec. run. rewrite Hauth.
  unfold getLinkInfo, kv_get_json, kv_get, getClickCount. run. cbn [ns_map].
  destruct (URL_KV (env st) !! s) as [text|]; [|eexists; split; reflexivity].
  destruct (JSON_parse text) as [v|]; [|eexists; split; reflexivity].
  destruct (truthy (Some v)); cbn [negb]; eexists; split; reflexivity.
Qed.

(** X17. Shorten, then look the link up: after a valid shorten request with a
    custom slug that the store read as free, the single-link route reports
    that slug, the url as destination, the time of the shorten request as
    creation time, and the count of whatever counter the Click Store
    already had for the slug (0 without one), for a count in the range
    where the doubles of the worker are exact. *)
Theorem shorten_then_info (request i : Request) (st : State) (keys : json)
    (u s base p : string) :
  method request = "POST" -> pathname request = "/api/shorten" ->
  validateApiKey request (env st) = Some keys ->
  json_body request = BodyObj (Some (JString u)) (Some s) ->
  startsWith u "http" = true -> truthy_text (Some s) = true ->
  truthy_text (URL_KV (env st) !! s) = false ->
  method i = "GET" -> base = "/api/links/" \/ base = "/links/" ->
  p <> "" -> pathname i = base ++ p -> decodeURIComponent p = Some s ->
  Authorization i = Authorization request ->
  JSON_parse (JSON_stringify (mkLink u s (Date_now st)))
  = Some (link_json (mkLink u s (Date_now st))) ->
  safe_integer (click_count (LINK_CLICKS_KV (env st)) s) ->
  exists st' st'',
    fetch request st
    = (Ok (json_response (JsonShort (origin request ++ "/" ++ s) s) 200), st') /\
    fetch i st'
    = (Ok (json_response
             (JsonInfo (mkInfo (Some (JString s)) (Some (JString u))
                               (Some (JString (Date_now st)))
                               (click_count (LINK_CLICKS_KV (env st)) s))) 200), st'').
Proof.
  intros Hm Hp Hauth Hb Hu Hs Hfree Hi Hbase Hp' Hpath Hdec Hsame Hcodec _.
  destruct (shorten_custom_fresh request st keys u s Hm Hp Hauth Hb Hu Hs Hfree)
    as (st' & Hf & Henv & Hnow).
  assert (Hauth' : validateApiKey i (env st') = Some keys).
  { rewrite <- Hauth. unfold validateApiKey. rewrite Hsame, Henv. reflexivity. }
  destruct (link_info_lookup i st' keys base p s Hi Hbase Hp' Hpath Hdec Hauth')
    as (st'' & Hinfo).
  exists st', st''. split; [exact Hf|]. rewrite Hinfo, Henv.
  cbn [set_ns_map URL_KV LINK_CLICKS_KV]. rewrite lookup_insert_eq, Hcodec.
  reflexivity.
Qed.

End SequencesProperties.

Section Counters.
Context `{Platform}.

(** X18. The url test of the shorten handler is a prefix test only: a url that
    starts with [http] but that the URL parser of the redirect rejects is
    stored with 200; every later GET of the slug is then answered with 500,
    and it still raises the counter, because the increment is started
    before the redirect response is built. *)
Theorem rejected_url_is_stored_and_counted (request g : Request) (st : State)
    (keys : json) (u s : string) :
  method request = "POST" -> pathname request = "/api/shorten" ->
  validateApiKey request (env st) = Some keys ->
  json_body request = BodyObj (Some (JString u)) (Some s) ->
  startsWith u "http" = true -> truthy_text (Some s) = true ->
  truthy_text (URL_KV (env st) !! s) = false ->
  method g = "GET" -> pathname g = "/" ++ s ->
  startsWith s "api/" = false -> s <> "links" -> startsWith s "links/" = false ->
  JSON_parse (JSON_stringify (mkLink u s (Date_now st)))
  = Some (link_json (mkLink u s (Date_now st))) ->
  URL_href u = None ->
  safe_integer (click_count (LINK_CLICKS_KV (env st)) s) ->
  exists st' st'',
    fetch request st
    = (Ok (json_response (JsonShort (origin request ++ "/" ++ s) s) 200), st') /\
    fetch g st' = (Ok (text_response "server error" 500), st'') /\
    click_count (LINK_CLICKS_KV (env st'')) s
    = click_count (LINK_CLICKS_KV (env st)) s + 1.
Proof.
  intros Hm Hp Hauth Hb Hu Hs Hfree Hg Hgp Hapi Hlinks Hlinks' Hcodec Hhref _.
  destruct (shorten_custom_fresh request st keys u s Hm Hp Hauth Hb Hu Hs Hfree)
    as (st' & Hf & Henv & Hnow).
  destruct (slug_routes_to_redirect s Hapi Hlinks Hlinks') as (Hinfo & Hlist & Hroute).
  rewrite <- Hgp in Hinfo, Hlist, Hroute.
  destruct (redirect_stored g st' s (JSON_stringify (mkLink u s (Date_now st)))
              (link_json (mkLink u s (Date_now st))) Hg Hgp Hs Hinfo Hlist Hroute)
    as (st'' & Hr & Henv' & _); auto.
  { rewrite Henv. cbn [set_ns_map URL_KV]. apply lookup_insert_eq. }
  exists st', st''. split; [exact Hf|]. split.
  - rewrite Hr.
    change (get_prop (link_json (mkLink u s (Date_now st))) "originalUrl")
      with (Some (JString u)).
    cbv beta iota. now rewrite Hhref.
  - rewrite Henv', Henv. cbn [set_ns_map LINK_CLICKS_KV]. apply click_count_after_put.
Qed.

(** X19. [n] GETs in a row of the path of a stored slug, each handled by the
    redirect route, leave its count [n] above where it was, and the Link
    Store as it was, when the count before and the count after are both
    in the range where the doubles of the worker are exact. *)
Theorem redirects_add_up (n : nat) (g : Request) (st : State) (s text : string)
    (v : json) :
  method g = "GET" -> pathname g = "/" ++ s -> truthy_text (Some s) = true ->
  is_info_path (pathname g) = false -> is_list_path (pathname g) = false ->
  startsWith (pathname g) "/api/" = false ->
  URL_KV (env st) !! s = Some text -> JSON_parse text = Some v ->
  truthy (Some v) = true ->
  safe_integer (click_count (LINK_CLICKS_KV (env st)) s) ->
  safe_integer (click_count (LINK_CLICKS_KV (env st)) s + Z.of_nat n) ->
  click_count (LINK_CLICKS_KV (env (fetch_times n g st))) s
  = click_count (LINK_CLICKS_KV (env st)) s + Z.of_nat n
  /\ URL_KV (env (fetch_times n g st)) = URL_KV (env st).
Proof.
  intros Hm Hp Hs Hinfo Hlist Hapi Hget Hparse Htruthy _ _.
  revert st Hget. induction n as [|n IH]; intros st Hget.
  - cbn [fetch_times]. split; [lia | reflexivity].
  - cbn [fetch_times].
    destruct (redirect_stored g st s text v Hm Hp Hs Hinfo Hlist Hapi Hget Hparse Htruthy)
      as (st' & Hr & Henv & _).
    rewrite Hr. cbn [snd].
    assert (Hlinks : URL_KV (env st') = URL_KV (env st)) by now rewrite Henv.
    assert (Hget' : URL_KV (env st') !! s = Some text) by now rewrite Hlinks.
    destruct (IH st' Hget') as [Hcount Hkeep]. split; [|congruence].
    rewrite Hcount, Henv. cbn [set_ns_map LINK_CLICKS_KV].
    rewrite click_count_after_put. lia.
Qed.

(** X20. The counter outlives the link: after a link is deleted and its slug is
    shortened again, the single-link route reports the new destination with
    the clicks of the old link, for a count in the range where the doubles
    of the worker are exact. *)
Theorem recreated_slug_inherits_clicks (d r i : Request) (st : State) (keys : json)
    (url : jsval) (u s text base p : string) :
  method d = "DELETE" -> pathname d = "/api/delete" ->
  json_body d = BodyObj url (Some s) ->
  method r = "POST" -> pathname r = "/api/shorten" ->
  json_body r = BodyObj (Some (JString u)) (Some s) -> startsWith u "http" = true ->
  method i = "GET" -> base = "/api/links/" \/ base = "/links/" ->
  p <> "" -> pathname i = base ++ p -> decodeURIComponent p = Some s ->
  validateApiKey d (env st) = Some keys ->
  Authorization r = Authorization d -> Authorization i = Authorization d ->
  truthy_text (Some s) = true ->
  URL_KV (env st) !! s = Some text -> truthy_text (Some text) = true ->
  JSON_parse (JSON_stringify (mkLink u s (Date_now st)))
  = Some (link_json (mkLink u s (Date_now st))) ->
  safe_integer (click_count (LINK_CLICKS_KV (env st)) s) ->
  exists st1 st2 st3,
    fetch d st = (Ok (json_response (JsonMessage "link deleted") 200), st1) /\
    fetch r st1 = (Ok (json_response (JsonShort (origin r ++ "/" ++ s) s) 200), st2) /\
    fetch i st2
    = (Ok (json_response
             (JsonInfo (mkInfo (Some (JString s)) (Some (JString u))
                               (Some (JString (Date_now st)))
                               (click_count (LINK_CLICKS_KV (env st)) s))) 200), st3).
Proof.
  intros Hd Hdp Hdb Hr Hrp Hrb Hu Hi Hbase Hp Hpath Hdec Hauth Hra Hia Hs Hget Htext Hcodec _.
  destruct (delete_slug d st keys url s Hd Hdp Hauth Hdb Hs) as (st1 & Hf1 & Henv1 & Hnow1).
  rewrite Hget, Htext in Hf1, Henv1.
  assert (Hauth1 : validateApiKey r (env st1) = Some keys).
  { rewrite <- Hauth. unfold validateApiKey. rewrite Hra, Henv1. reflexivity. }
  assert (Hfree : truthy_text (URL_KV (env st1) !! s) = false).
  { rewrite Henv1. cbn [set_ns_map URL_KV]. now rewrite lookup_delete_eq. }
  destruct (shorten_custom_fresh r st1 keys u s Hr Hrp Hauth1 Hrb Hu Hs Hfree)
    as (st2 & Hf2 & Henv2 & Hnow2).
  assert (Hauth2 : validateApiKey i (env st2) = Some keys).
  { rewrite <- Hauth. unfold validateApiKey. rewrite Hia, Henv2, Henv1. reflexivity. }
  destruct (link_info_lookup i st2 keys base p s Hi Hbase Hp Hpath Hdec Hauth2)
    as (st3 & Hf3).
  exists st1, st2, st3. split; [exact Hf1|]. split; [exact Hf2|].
  rewrite Hf3, Henv2, Henv1, Hnow1. cbn [set_ns_map URL_KV LINK_CLICKS_KV].
  rewrite lookup_insert_eq, Hcodec. reflexivity.
Qed.

(** X21. Deleting is not repeatable: the same delete request, sent again after
    it succeeded, is answered with 404 and changes nothing. *)
Theorem delete_twice_404 (d : Request) (st : State) (keys : json) (url : jsval)
    (s text : string) :
  method d = "DELETE" -> pathname d = "/api/delete" ->
  validateApiKey d (env st) = Some keys ->
  json_body d = BodyObj url (Some s) -> truthy_text (Some s) = true ->
  URL_KV (env st) !! s = Some text -> truthy_text (Some text) = true ->
  exists st1 st2,
    fetch d st = (Ok (json_response (JsonMessage "link deleted") 200), st1) /\
    fetch d st1 = (Ok (json_response (JsonError "slug not found") 404), st2) /\
    env st2 = env st1.
Proof.
  intros Hd Hdp Hauth Hdb Hs Hget Htext.
  destruct (delete_slug d st keys url s Hd Hdp Hauth Hdb Hs) as (st1 & Hf1 & Henv1 & _).
  rewrite Hget, Htext in Hf1, Henv1.
  assert (Hauth1 : validateApiKey d (env st1) = Some keys).
  { rewrite <- Hauth. apply validateApiKey_same_secret. now rewrite Henv1. }
  destruct (delete_slug d st1 keys url s Hd Hdp Hauth1 Hdb Hs) as (st2 & Hf2 & Henv2 & _).
  assert (Hgone : truthy_text (URL_KV (env st1) !! s) = false).
  { rewrite Henv1. cbn [set_ns_map URL_KV]. now rewrite lookup_delete_eq. }
  rewrite Hgone in Hf2, Henv2. eauto.
Qed.

End Counters.

(** ** Listing *)

Section Listing.
Context `{Platform}.

Lemma fetch_list_path (request : Request) (st : State) :
  method request = "GET" -> is_list_path (pathname request) = true ->
  fetch request st
  = try_catch (handle_list request) (fun _ => ret (text_response "server error" 500)) st.
Proof.
  intros Hm Hlist. rewrite fetch_get by assumption.
  assert (Hroot : String.eqb (pathname request) "/" = false).
  { destruct (String.eqb_spec (pathname request) "/") as [Hp|]; [|reflexivity].
    rewrite Hp in Hlist. discriminate. }
  assert (Hinfo : is_info_path (pathname request) = false).
  { unfold is_list_path in Hlist.
    repeat (apply orb_true_iff in Hlist as [Hlist | Hlist]);
      apply String.eqb_eq in Hlist; rewrite Hlist; reflexivity. }
  now rewrite Hroot, Hinfo, Hlist.
Qed.

Lemma listed_key (m : gmap string string) (key : string) :
  key ∈ remove_dups (map fst (map_to_list m)) <-> is_Some (m !! key).
Proof.
  rewrite elem_of_remove_dups, list_elem_of_In, in_map_iff. split.
  - intros ([k text] & <- & Hin). apply list_elem_of_In, elem_of_map_to_list in Hin.
    eauto.
  - intros [text Hget]. exists (key, text). split; [reflexivity|].
    now apply list_elem_of_In, elem_of_map_to_list.
Qed.

Lemma stored_info_same_env (e e' : Env) (key : string) :
  e' = e -> stored_info e' key = stored_info e key.
Proof. now intros ->. Qed.

(** [collect_infos] over keys whose texts are all JSON. *)
Lemma collect_infos_spec (slugs : list string) (st : State) :
  (forall key text, key ∈ slugs -> URL_KV (env st) !! key = Some text ->
                    JSON_parse text <> None) ->
  exists st', collect_infos slugs st = (Ok (omap (stored_info (env st)) slugs), st')
              /\ env st' = env st.
Proof.
  revert st. induction slugs as [|key rest IH]; intros st Hjson.
  - exists st. split; reflexivity.
  - cbn [collect_infos]. unfold bind.
    destruct (getLinkInfo_spec key st) as (st1 & -> & Henv1).
    { intros text. apply Hjson. left. }
    destruct (IH st1) as (st2 & -> & Henv2).
    { intros k text Hk. rewrite Henv1. apply Hjson. now right. }
    exists st2. rewrite Henv1. split; [|congruence].
    cbn [omap list_omap ret]. now destruct (stored_info (env st) key).
Qed.

(** [collect_infos] over keys one of which has a text that is not JSON. *)
Lemma collect_infos_corrupt (slugs : list string) (st : State) (key text : string) :
  key ∈ slugs -> URL_KV (env st) !! key = Some text -> JSON_parse text = None ->
  exists e st', collect_infos slugs st = (Throw e, st') /\ env st' = env st.
Proof.
  revert st. induction slugs as [|k rest IH]; intros st Hin Hget Hparse.
  - inversion Hin.
  - cbn [collect_infos]. unfold bind.
    destruct (read_only_getLinkInfo k st) as [Henv1 _].
    destruct (getLinkInfo k st) as [[info|e] st1] eqn:Hk; cbn [snd] in Henv1.
    + assert (Hrest : key ∈ rest).
      { apply elem_of_cons in Hin as [-> | Hin]; [|exact Hin].
        destruct (getLinkInfo_corrupt k text st Hget Hparse) as (e & st' & Hthrow).
        congruence. }
      destruct (IH st1 Hrest) as (e & st2 & -> & Henv2); [congruence | assumption |].
      exists e, st2. split; [reflexivity | congruence].
    + exists e, st1. split; [reflexivity | assumption].
Qed.

(** X22. An authorized list request, when the binding can list and every stored
    text is JSON, is answered with 200 and exactly the info records of the
    keys of the Link Store whose text parses to a truthy value, each with
    its click count; neither store changes. The counts of the stored keys
    are taken in the range where the doubles of the worker are exact. *)
Theorem list_links_response (request : Request) (st : State) (keys : json) :
  method request = "GET" -> is_list_path (pathname request) = true ->
  validateApiKey request (env st) = Some keys ->
  URL_KV_list (env st) = true ->
  (forall key text, URL_KV (env st) !! key = Some text -> JSON_parse text <> None) ->
  (forall key, is_Some (URL_KV (env st) !! key) ->
               safe_integer (click_count (LINK_CLICKS_KV (env st)) key)) ->
  exists infos st',
    fetch request st = (Ok (json_response (JsonLinks infos) 200), st') /\
    env st' = env st /\
    forall info, info ∈ infos <-> exists key, stored_info (env st) key = Some info.
Proof.
  intros Hm Hlist Hauth Hcan Hjson _. rewrite fetch_list_path by assumption.
  unfold handle_list, try_catch, bind, get_env, list_keys.
  rewrite Hauth, Hcan.
  set (slugs := remove_dups (map fst (map_to_list (URL_KV (env st))))).
  destruct (collect_infos_spec slugs (record (KVList LinkStore) st)) as (st' & -> & Henv).
  { intros key text _. apply Hjson. }
  exists (omap (stored_info (env st)) slugs), st'.
  split; [reflexivity|]. split; [exact Henv|].
  intros info. rewrite list_elem_of_omap. split.
  - intros (key & _ & Hinfo). eauto.
  - intros (key & Hinfo). exists key. split; [|exact Hinfo].
    apply listed_key. unfold stored_info in Hinfo.
    destruct (URL_KV (env st) !! key); [eauto | discriminate].
Qed.

(** X23. One stored text that is not JSON is enough to fail the whole listing:
    the answer is 500, not the list of the other links. *)
Theorem list_corrupt_record_500 (request : Request) (st : State) (keys : json)
    (key text : string) :
  method request = "GET" -> is_list_path (pathname request) = true ->
  validateApiKey request (env st) = Some keys ->
  URL_KV_list (env st) = true ->
  URL_KV (env st) !! key = Some text -> JSON_parse text = None ->
  exists st',
    fetch request st = (Ok (json_response (JsonError "server error") 500), st') /\
    env st' = env st.
Proof.
  intros Hm Hlist Hauth Hcan Hget Hparse. rewrite fetch_list_path by assumption.
  unfold handle_list, try_catch, bind, get_env, list_keys.
  rewrite Hauth, Hcan.
  set (slugs := remove_dups (map fst (map_to_list (URL_KV (env st))))).
  destruct (collect_infos_corrupt slugs (record (KVList LinkStore) st) key text)
    as (e & st' & -> & Henv); [apply listed_key; eauto | assumption | assumption |].
  exists st'. split; [reflexivity | exact Henv].
Qed.

End Listing.

(** ** The alphabet of generated slugs *)

Lemma chars_at_injective (i j : nat) :
  (i < 62)%nat -> (j < 62)%nat -> chars_at i = chars_at j -> i = j.
Proof.
  intros Hi Hj Heq.
  assert (Hall : forallb (fun a => forallb (fun b =>
                    implb (String.eqb (chars_at a) (chars_at b)) (Nat.eqb a b))
                    (seq 0 62)) (seq 0 62) = true) by (vm_compute; reflexivity).
  rewrite forallb_forall in Hall.
  specialize (Hall i). rewrite forallb_forall in Hall.
  assert (Hin : forall k, (k < 62)%nat -> In k (seq 0 62)).
  { intros k Hk. apply in_seq. lia. }
  specialize (Hall (Hin i Hi) j (Hin j Hj)).
  apply String.eqb_eq in Heq. rewrite Heq in Hall. now apply Nat.eqb_eq in Hall.
Qed.

(** X14. The 62 characters of the alphabet are distinct: two runs of
    [generateSlug] that return the same slug drew the same six indices, so
    every slug comes from exactly one of the 62^6 index sequences. *)
Theorem generateSlug_distinct (st1 st2 : State) (s : string) (k : nat) :
  fst (generateSlug st1) = Ok s -> fst (generateSlug st2) = Ok s -> (k < 6)%nat ->
  (Math_random st1 (k + random_cursor st1) `mod` 62
   = Math_random st2 (k + random_cursor st2) `mod` 62)%nat.
Proof.
  rewrite !generateSlug_value. cbn [fst]. intros H1 H2 Hk.
  assert (Heq : drawn_slug (Math_random st1) (random_cursor st1)
                = drawn_slug (Math_random st2) (random_cursor st2)) by congruence.
  clear H1 H2. unfold drawn_slug in Heq.
  set (r1 := Math_random st1) in *. set (c1 := random_cursor st1) in *.
  set (r2 := Math_random st2) in *. set (c2 := random_cursor st2) in *.
  assert (Hb : forall d, (d `mod` 62 < 62)%nat).
  { intros d. apply Nat.mod_upper_bound. discriminate. }
  assert (Hinj : forall a b, chars_at (a `mod` 62) = chars_at (b `mod` 62) ->
                             (a `mod` 62 = b `mod` 62)%nat).
  { intros a b. apply chars_at_injective; apply Hb. }
  destruct (chars_at_alnum _ (Hb (r1 c1))) as (x0 & Hx0 & _).
  destruct (chars_at_alnum _ (Hb (r1 (1 + c1)%nat))) as (x1 & Hx1 & _).
  destruct (chars_at_alnum _ (Hb (r1 (2 + c1)%nat))) as (x2 & Hx2 & _).
  destruct (chars_at_alnum _ (Hb (r1 (3 + c1)%nat))) as (x3 & Hx3 & _).
  destruct (chars_at_alnum _ (Hb (r1 (4 + c1)%nat))) as (x4 & Hx4 & _).
  destruct (chars_at_alnum _ (Hb (r1 (5 + c1)%nat))) as (x5 & Hx5 & _).
  destruct (chars_at_alnum _ (Hb (r2 c2))) as (y0 & Hy0 & _).
  destruct (chars_at_alnum _ (Hb (r2 (1 + c2)%nat))) as (y1 & Hy1 & _).
  destruct (chars_at_alnum _ (Hb (r2 (2 + c2)%nat))) as (y2 & Hy2 & _).
  destruct (chars_at_alnum _ (Hb (r2 (3 + c2)%nat))) as (y3 & Hy3 & _).
  destruct (chars_at_alnum _ (Hb (r2 (4 + c2)%nat))) as (y4 & Hy4 & _).
  destruct (chars_at_alnum _ (Hb (r2 (5 + c2)%nat))) as (y5 & Hy5 & _).
  assert (Hchars : x0 = y0 /\ x1 = y1 /\ x2 = y2 /\ x3 = y3 /\ x4 = y4 /\ x5 = y5).
  { rewrite Hx0, Hx1, Hx2, Hx3, Hx4, Hx5, Hy0, Hy1, Hy2, Hy3, Hy4, Hy5 in Heq.
    cbv beta iota delta [String.append] in Heq.
    injection Heq. intros. repeat split; congruence. }
  destruct Hchars as (E0 & E1 & E2 & E3 & E4 & E5).
  do 6 (destruct k as [|k]; [apply Hinj; cbn [Nat.add] in *; congruence|]). lia.
Qed.

(** ** Requests without a valid key *)

(** X12. On the routes that require a key (shorten, delete, single link,
    list), a request whose Authorization header is missing, does not start
    with [Bearer ], or does not validate is answered with 401 and the final
    state is the initial one: the body is not read and no KV call is made.
    On the single-link route this needs a path slug that decodes. *)
Theorem key_required_401 `{Platform} (request : Request) (st : State) :
  requires_key request = true ->
  Authorization request = None
  \/ (exists h, Authorization request = Some h /\ startsWith h "Bearer " = false)
  \/ validateApiKey request (env st) = None ->
  (is_info_path (pathname request) = true ->
   decodeURIComponent (info_path_slug (pathname request)) <> None) ->
  fetch request st = (Ok unauthorized, st) /\
  kv_log (snd (fetch request st)) = kv_log st.
Proof.
  intros Hreq Hbad Hdec.
  assert (Hnone : validateApiKey request (env st) = None).
  { destruct Hbad as [Hmissing | [(h & Hh & Hscheme) | Hinvalid]].
    - unfold validateApiKey. now rewrite Hmissing.
    - unfold validateApiKey. rewrite Hh, Hscheme. now rewrite orb_true_r.
    - exact Hinvalid. }
  rewrite (unauthorized_401 request st Hreq Hnone Hdec). split; reflexivity.
Qed.

(** ** The further properties on sample requests *)

Lemma record_kept_until_deleted_witness :
  URL_KV (env (snd (fetch (H := Reference.platform)
                      (Sample.request "POST" "/api/shorten" (Some "Bearer key-1")
                         (BodyObj (Some (JString "https://b.com")) (Some "abc123")))
                      Sample.one_link))) !! "abc123"
  = Some Sample.link_a.
Proof.
  destruct (record_kept_until_deleted (H := Reference.platform)
              (Sample.request "POST" "/api/shorten" (Some "Bearer key-1")
                 (BodyObj (Some (JString "https://b.com")) (Some "abc123")))
              Sample.one_link "abc123" Sample.link_a eq_refl eq_refl)
    as [Hkept | (Hm & _)]; [exact Hkept | discriminate Hm].
Defined.

Lemma sample_clicks_wf : clicks_wf (LINK_CLICKS_KV (env Sample.one_link)).
Proof.
  intros key text Hget. unfold Sample.one_link, Sample.state in Hget.
  cbn [env LINK_CLICKS_KV] in Hget. apply lookup_singleton_Some in Hget as [<- <-].
  exists 3. split; [lia | reflexivity].
Qed.

Lemma sample_safe : safe_integer (click_count (LINK_CLICKS_KV (env Sample.one_link)) "abc123").
Proof. unfold safe_integer. vm_compute. split; [discriminate | reflexivity]. Qed.

Lemma clicks_wf_preserved_witness :
  clicks_wf (LINK_CLICKS_KV
               (env (snd (fetch (H := Reference.platform)
                            (Sample.request "GET" "/abc123" None BodyReject)
                            Sample.one_link)))).
Proof.
  apply (clicks_wf_preserved (H := Reference.platform)
           (Sample.request "GET" "/abc123" None BodyReject) Sample.one_link
           sample_clicks_wf sample_safe).
Defined.

Lemma click_count_never_decreases_witness :
  3 <= click_count
         (LINK_CLICKS_KV (env (snd (fetch (H := Reference.platform)
                                      (Sample.request "GET" "/abc123" None BodyReject)
                                      Sample.one_link)))) "abc123".
Proof.
  apply (click_count_never_decreases (H := Reference.platform)
           (Sample.request "GET" "/abc123" None BodyReject) Sample.one_link "abc123"
           sample_safe).
Defined.

Lemma unrouted_404_witness :
  fetch (H := Reference.platform)
    (Sample.request "HEAD" "/abc123" (Some "Bearer key-1") BodyReject) Sample.one_link
  = (Ok (text_response "not found" 404), Sample.one_link).
Proof. apply (unrouted_404 (H := Reference.platform)). reflexivity. Defined.

Lemma public_routes_ignore_credentials_witness :
  fetch (H := Reference.platform)
    (with_credentials (Sample.request "GET" "/abc123" None BodyReject)
       (Some "Bearer wrong") BodyNull) Sample.one_link
  = fetch (H := Reference.platform)
      (Sample.request "GET" "/abc123" None BodyReject) Sample.one_link.
Proof.
  apply (public_routes_ignore_credentials (H := Reference.platform)); reflexivity.
Defined.

Lemma links_aliases_witness :
  fetch (H := Reference.platform)
    (with_pathname (Sample.request "GET" "/" (Some "Bearer key-1") BodyReject)
       ("/links/" ++ "abc123")) Sample.one_link
  = fetch (H := Reference.platform)
      (with_pathname (Sample.request "GET" "/" (Some "Bearer key-1") BodyReject)
         ("/api/links/" ++ "abc123")) Sample.one_link.
Proof.
  apply (proj1 (links_aliases (H := Reference.platform)
                  (Sample.request "GET" "/" (Some "Bearer key-1") BodyReject)
                  Sample.one_link "abc123" "/links" eq_refl)).
  discriminate.
Defined.

Lemma list_unsupported_501_witness :
  fetch (H := Reference.platform)
    (Sample.request "GET" "/api/links" (Some "Bearer key-1") BodyReject) Sample.no_list
  = (Ok (json_response (JsonError "KV list not supported in this environment") 501),
     Sample.no_list).
Proof.
  apply (list_unsupported_501 (H := Reference.platform) _ _ Sample.key_list); reflexivity.
Defined.

Lemma validateApiKey_array_iff_witness :
  validateApiKey (H := Reference.platform)
    (Sample.request "DELETE" "/api/delete" (Some "Bearer key-2") BodyReject)
    (env Sample.one_link)
  = Some Sample.key_list.
Proof.
  apply (proj1 (validateApiKey_array_iff (H := Reference.platform)
                  (Sample.request "DELETE" "/api/delete" (Some "Bearer key-2") BodyReject)
                  (env Sample.one_link)
                  (Reference.array_text ["key-1"; "key-2"])
                  [JString "key-1"; JString "key-2"]
                  eq_refl ltac:(discriminate) eq_refl)).
  exists "key-2". split; [reflexivity | right; left; reflexivity].
Defined.

Lemma validateApiKey_fails_closed_witness :
  validateApiKey (H := Reference.platform)
    (Sample.request "POST" "/api/shorten" (Some "Bearer not json") BodyReject)
    (env (Sample.state ∅ ∅ (SecretString "not json")))
  = None.
Proof.
  apply (validateApiKey_fails_closed (H := Reference.platform)). right. exact I.
Defined.

Lemma getUniqueSlug_custom_witness :
  getUniqueSlug (Some "abc123") 5 Sample.one_link
  = (Throw (Error "Custom slug already exists"),
     record (KVGet LinkStore "abc123") Sample.one_link).
Proof.
  exact (proj1 (getUniqueSlug_custom "abc123" 4 Sample.one_link eq_refl)).
Defined.

Lemma redirect_unknown_slug_witness :
  fetch (H := Reference.platform)
    (Sample.request "GET" "/nope" None BodyReject) Sample.one_link
  = (Ok (text_response "not found" 404), record (KVGet LinkStore "nope") Sample.one_link).
Proof.
  apply (redirect_unknown_slug (H := Reference.platform)
           (Sample.request "GET" "/nope" None BodyReject) Sample.one_link "nope");
    reflexivity.
Defined.

Lemma link_info_response_witness :
  exists st',
    fetch (H := Reference.platform)
      (Sample.request "GET" "/api/links/abc123" (Some "Bearer key-1") BodyReject)
      Sample.one_link
    = (Ok (json_response
             (JsonInfo (mkInfo (Some (JString "abc123")) (Some (JString "https://a.com"))
                               (Some (JString "2023-12-31T00:00:00.000Z")) 3)) 200), st').
Proof.
  destruct (link_info_response (H := Reference.platform)
              (Sample.request "GET" "/api/links/abc123" (Some "Bearer key-1") BodyReject)
              Sample.one_link Sample.key_list "/api/links/" "abc123" "abc123"
              eq_refl (or_introl eq_refl) ltac:(discriminate) eq_refl eq_refl eq_refl
              sample_safe)
    as (st' & Hf & _).
  exists st'. exact Hf.
Defined.

Lemma shorten_then_info_witness :
  exists st' st'',
    fetch (H := Reference.platform)
      (Sample.request "POST" "/api/shorten" (Some "Bearer key-1")
         (BodyObj (Some (JString "https://b.com")) (Some "xyz")))
      Sample.one_link
    = (Ok (json_response (JsonShort "https://srt.example/xyz" "xyz") 200), st') /\
    fetch (H := Reference.platform)
      (Sample.request "GET" "/links/xyz" (Some "Bearer key-1") BodyReject) st'
    = (Ok (json_response
             (JsonInfo (mkInfo (Some (JString "xyz")) (Some (JString "https://b.com"))
                               (Some (JString "2024-01-01T00:00:00.000Z")) 0)) 200), st'').
Proof.
  destruct (shorten_then_info (H := Reference.platform)
              (Sample.request "POST" "/api/shorten" (Some "Bearer key-1")
                 (BodyObj (Some (JString "https://b.com")) (Some "xyz")))
              (Sample.request "GET" "/links/xyz" (Some "Bearer key-1") BodyReject)
              Sample.one_link Sample.key_list "https://b.com" "xyz" "/links/" "xyz"
              eq_refl eq_refl eq_refl eq_refl eq_refl eq_refl eq_refl
              eq_refl (or_intror eq_refl) ltac:(discriminate) eq_refl eq_refl eq_refl eq_refl)
    as (st' & st'' & Hf & Hi).
  { unfold safe_integer. vm_compute. split; [discriminate | reflexivity]. }
  exists st', st''. split; [exact Hf | exact Hi].
Defined.

Lemma rejected_url_is_stored_and_counted_witness :
  exists st' st'',
    fetch (H := Reference.platform)
      (Sample.request "POST" "/api/shorten" (Some "Bearer key-1")
         (BodyObj (Some (JString "http")) (Some "bad")))
      Sample.one_link
    = (Ok (json_response (JsonShort "https://srt.example/bad" "bad") 200), st') /\
    fetch (H := Reference.platform) (Sample.request "GET" "/bad" None BodyReject) st'
    = (Ok (text_response "server error" 500), st'') /\
    click_count (LINK_CLICKS_KV (env st'')) "bad" = 1.
Proof.
  destruct (rejected_url_is_stored_and_counted (H := Reference.platform)
              (Sample.request "POST" "/api/shorten" (Some "Bearer key-1")
                 (BodyObj (Some (JString "http")) (Some "bad")))
              (Sample.request "GET" "/bad" None BodyReject)
              Sample.one_link Sample.key_list "http" "bad"
              eq_refl eq_refl eq_refl eq_refl eq_refl eq_refl eq_refl
              eq_refl eq_refl eq_refl ltac:(discriminate) eq_refl eq_refl eq_refl)
    as (st' & st'' & Hf & Hg & Hcount).
  { unfold safe_integer. vm_compute. split; [discriminate | reflexivity]. }
  exists st', st''. split; [exact Hf|]. split; [exact Hg | exact Hcount].
Defined.

Lemma redirects_add_up_witness :
  click_count
    (LINK_CLICKS_KV
       (env (fetch_times (H := Reference.platform) 3
               (Sample.request "GET" "/abc123" None BodyReject)
               (Sample.state {[ "abc123" := Sample.link_a ]} ∅ Sample.keys)))) "abc123"
  = 3.
Proof.
  refine (proj1 (redirects_add_up (H := Reference.platform) 3
                   (Sample.request "GET" "/abc123" None BodyReject)
                   (Sample.state {[ "abc123" := Sample.link_a ]} ∅ Sample.keys)
                   "abc123" Sample.link_a
                   (link_json (mkLink "https://a.com" "abc123" "2023-12-31T00:00:00.000Z"))
                   eq_refl eq_refl eq_refl eq_refl eq_refl eq_refl eq_refl eq_refl eq_refl
                   _ _)).
  - unfold safe_integer. vm_compute. split; [discriminate | reflexivity].
  - unfold safe_integer. vm_compute. split; [discriminate | reflexivity].
Defined.

Lemma recreated_slug_inherits_clicks_witness :
  exists st1 st2 st3,
    fetch (H := Reference.platform)
      (Sample.request "DELETE" "/api/delete" (Some "Bearer key-1")
         (BodyObj None (Some "abc123"))) Sample.one_link
    = (Ok (json_response (JsonMessage "link deleted") 200), st1) /\
    fetch (H := Reference.platform)
      (Sample.request "POST" "/api/shorten" (Some "Bearer key-1")
         (BodyObj (Some (JString "https://b.com")) (Some "abc123"))) st1
    = (Ok (json_response (JsonShort "https://srt.example/abc123" "abc123") 200), st2) /\
    fetch (H := Reference.platform)
      (Sample.request "GET" "/api/links/abc123" (Some "Bearer key-1") BodyReject) st2
    = (Ok (json_response
             (JsonInfo (mkInfo (Some (JString "abc123")) (Some (JString "https://b.com"))
                               (Some (JString "2024-01-01T00:00:00.000Z")) 3)) 200), st3).
Proof.
  exact (recreated_slug_inherits_clicks (H := Reference.platform)
           (Sample.request "DELETE" "/api/delete" (Some "Bearer key-1")
              (BodyObj None (Some "abc123")))
           (Sample.request "POST" "/api/shorten" (Some "Bearer key-1")
              (BodyObj (Some (JString "https://b.com")) (Some "abc123")))
           (Sample.request "GET" "/api/links/abc123" (Some "Bearer key-1") BodyReject)
           Sample.one_link Sample.key_list None "https://b.com" "abc123" Sample.link_a
           "/api/links/" "abc123"
           eq_refl eq_refl eq_refl eq_refl eq_refl eq_refl eq_refl eq_refl
           (or_introl eq_refl) ltac:(discriminate) eq_refl eq_refl eq_refl eq_refl eq_refl
           eq_refl eq_refl eq_refl eq_refl sample_safe).
Defined.

Lemma delete_twice_404_witness :
  exists st1 st2,
    fetch (H := Reference.platform)
      (Sample.request "DELETE" "/api/delete" (Some "Bearer key-1")
         (BodyObj None (Some "abc123"))) Sample.one_link
    = (Ok (json_response (JsonMessage "link deleted") 200), st1) /\
    fetch (H := Reference.platform)
      (Sample.request "DELETE" "/api/delete" (Some "Bearer key-1")
         (BodyObj None (Some "abc123"))) st1
    = (Ok (json_response (JsonError "slug not found") 404), st2) /\
    env st2 = env st1.
Proof.
  exact (delete_twice_404 (H := Reference.platform)
           (Sample.request "DELETE" "/api/delete" (Some "Bearer key-1")
              (BodyObj None (Some "abc123")))
           Sample.one_link Sample.key_list None "abc123" Sample.link_a
           eq_refl eq_refl eq_refl eq_refl eq_refl eq_refl eq_refl).
Defined.

Lemma sample_all_json (key text : string) :
  URL_KV (env Sample.one_link) !! key = Some text -> Reference.parse text <> None.
Proof.
  intros Hget. unfold Sample.one_link, Sample.state in Hget. cbn [env URL_KV] in Hget.
  apply lookup_singleton_Some in Hget as [_ <-]. vm_compute. discriminate.
Qed.

Lemma sample_all_safe (key : string) :
  is_Some (URL_KV (env Sample.one_link) !! key) ->
  safe_integer (click_count (LINK_CLICKS_KV (env Sample.one_link)) key).
Proof.
  intros [text Hget]. unfold Sample.one_link, Sample.state in Hget. cbn [env URL_KV] in Hget.
  apply lookup_singleton_Some in Hget as [<- _]. exact sample_safe.
Qed.

Lemma list_links_response_witness :
  exists infos st',
    fetch (H := Reference.platform)
      (Sample.request "GET" "/api/links" (Some "Bearer key-1") BodyReject) Sample.one_link
    = (Ok (json_response (JsonLinks infos) 200), st') /\
    mkInfo (Some (JString "abc123")) (Some (JString "https://a.com"))
           (Some (JString "2023-12-31T00:00:00.000Z")) 3 ∈ infos.
Proof.
  destruct (list_links_response (H := Reference.platform)
              (Sample.request "GET" "/api/links" (Some "Bearer key-1") BodyReject)
              Sample.one_link Sample.key_list eq_refl eq_refl eq_refl eq_refl
              sample_all_json sample_all_safe)
    as (infos & st' & Hf & _ & Hin).
  exists infos, st'. split; [exact Hf|]. apply Hin. exists "abc123". reflexivity.
Defined.

Lemma list_corrupt_record_500_witness :
  exists st',
    fetch (H := Reference.platform)
      (Sample.request "GET" "/links" (Some "Bearer key-1") BodyReject) Sample.corrupt
    = (Ok (json_response (JsonError "server error") 500), st').
Proof.
  destruct (list_corrupt_record_500 (H := Reference.platform)
              (Sample.request "GET" "/links" (Some "Bearer key-1") BodyReject)
              Sample.corrupt Sample.key_list "bad" "not json"
              eq_refl eq_refl eq_refl eq_refl eq_refl eq_refl)
    as (st' & Hf & _).
  exists st'. exact Hf.
Defined.

Lemma key_required_401_witness :
  fetch (H := Reference.platform)
    (Sample.request "DELETE" "/api/delete" (Some "Basic key-1")
       (BodyObj None (Some "abc123"))) Sample.one_link
  = (Ok unauthorized, Sample.one_link).
Proof.
  apply (proj1 (key_required_401 (H := Reference.platform)
                  (Sample.request "DELETE" "/api/delete" (Some "Basic key-1")
                     (BodyObj None (Some "abc123"))) Sample.one_link eq_refl
                  (or_intror (or_introl (ex_intro _ "Basic key-1" (conj eq_refl eq_refl))))
                  (fun Hinfo => ltac:(discriminate Hinfo)))).
Defined.

Lemma generateSlug_distinct_witness :
  (Math_random (Sample.state ∅ ∅ Sample.keys) (0 + 0) `mod` 62
   = 62 `mod` 62)%nat.
Proof.
  exact (generateSlug_distinct
           (Sample.state ∅ ∅ Sample.keys)
           (mkState (mkEnv ∅ true Sample.keys ∅) [] (fun k => k + 62)%nat 0 "")
           "abcdef" 0 eq_refl eq_refl ltac:(lia)).
Defined.
